(** * chorus-lang: the localisation loader of [tools/language.py]

    A shallow embedding of the two classes of [tools/language.py],
    [Language] and [LanguageHolder], and the properties of their
    loading and lookup paths.

    Python objects are kept the way the program sees them: a parsed JSON
    document is a [json] value, a [dict] is an insertion-ordered
    association list (iteration order is observable in the program),
    [Language] instances live in a heap and are named by their address
    (the program compares them with [is] and mutates them in place), and
    the class attributes of [LanguageHolder] are fields of the [world]. *)

From Stdlib Require Import String Ascii List ZArith Bool Lia Arith.
From Stdlib Require Import Sorted Permutation DecimalString.
From Stdlib Require Import OrdersEx RelationClasses.
Import ListNotations.
Open Scope list_scope.
Open Scope string_scope.

Set Warnings "-register-all".

(** ** Python values *)

(** A [dict] keeps its keys in insertion order; a key occurs once. *)
Definition dict (V : Type) := list (string * V).

(** What [json.load] returns.  A float is kept as [m * 2^e]. *)
Inductive json : Type :=
| JNull
| JBool (b : bool)
| JInt (n : Z)
| JFloat (m e : Z)
| JStr (s : string)
| JArr (l : list json)
| JObj (o : list (string * json)).

(** Exceptions the program can raise. *)
Inductive exn : Type :=
| FileNotFoundError
| IsADirectoryError
| NotADirectoryError
| ValueError          (* json.JSONDecodeError and UnicodeDecodeError *)
| AttributeError
| TypeError
| OverflowError
| AssertionError
| StopIteration.

Inductive res (A : Type) : Type :=
| Ok (a : A)
| Raise (e : exn).
Arguments Ok {A} a.
Arguments Raise {A} e.

(** *** dict operations *)

Fixpoint dict_get {V} (d : dict V) (k : string) : option V :=
  match d with
  | [] => None
  | (k', v) :: r => if String.eqb k' k then Some v else dict_get r k
  end.

(** [k in d] *)
Definition dict_mem {V} (d : dict V) (k : string) : bool :=
  match dict_get d k with Some _ => true | None => false end.

(** [d.get(k, dflt)] *)
Definition dict_get_default {V} (d : dict V) (k : string) (dflt : V) : V :=
  match dict_get d k with Some v => v | None => dflt end.

(** [d[k] = v]: an existing key keeps its position, a new one goes last. *)
Fixpoint dict_set {V} (d : dict V) (k : string) (v : V) : dict V :=
  match d with
  | [] => [(k, v)]
  | (k', v') :: r =>
      if String.eqb k' k then (k', v) :: r else (k', v') :: dict_set r k v
  end.

(** [d.update(other)] *)
Definition dict_update {V} (d other : dict V) : dict V :=
  fold_left (fun acc kv => dict_set acc (fst kv) (snd kv)) other d.

Definition dict_keys {V} (d : dict V) : list string := map fst d.
Definition dict_values {V} (d : dict V) : list V := map snd d.

(** *** truth value and type tests *)

(** [bool(v)] *)
Definition truthy (v : json) : bool :=
  match v with
  | JNull => false
  | JBool b => b
  | JInt n => negb (Z.eqb n 0)
  | JFloat m _ => negb (Z.eqb m 0)
  | JStr s => negb (String.eqb s EmptyString)
  | JArr l => match l with [] => false | _ => true end
  | JObj o => match o with [] => false | _ => true end
  end.

(** [isinstance(v, str)] *)
Definition is_str (v : json) : bool :=
  match v with JStr _ => true | _ => false end.

(** [isinstance(v, dict)] *)
Definition is_dict (v : json) : bool :=
  match v with JObj _ => true | _ => false end.

(** [v.get(k, dflt)] on an arbitrary value: only a dict has [get]. *)
Definition py_get (v : json) (k : string) (dflt : json) : res json :=
  match v with
  | JObj o => Ok (dict_get_default o k dflt)
  | _ => Raise AttributeError
  end.

(** *** str operations *)

(** [s.startswith(p)] *)
Definition startswith (s p : string) : bool := String.prefix p s.

(** [s.endswith(p)] *)
Definition endswith (s p : string) : bool :=
  let n := String.length s in
  let m := String.length p in
  if Nat.leb m n then String.eqb (String.substring (n - m) m s) p else false.

(** The scan of [str.replace] for a non-empty [old]: [skip] counts the
    characters of a match that are still to be dropped. *)
Fixpoint replace_from (old new s : string) (skip : nat) : string :=
  match s with
  | EmptyString => EmptyString
  | String c s' =>
      match skip with
      | S n => replace_from old new s' n
      | O =>
          if String.prefix old s
          then new ++ replace_from old new s' (String.length old - 1)
          else String c (replace_from old new s' 0)
      end
  end.

Fixpoint interleave (new s : string) : string :=
  match s with
  | EmptyString => new
  | String c s' => new ++ String c (interleave new s')
  end.

(** [s.replace(old, new)] *)
Definition str_replace (s old new : string) : string :=
  match old with
  | EmptyString => interleave new s
  | _ => replace_from old new s 0
  end.

(** [sorted(names)] on strings: stable insertion into an ordered list. *)
Fixpoint insert_sorted (x : string) (l : list string) : list string :=
  match l with
  | [] => [x]
  | y :: r => if String.leb x y then x :: y :: r else y :: insert_sorted x r
  end.

Fixpoint sorted (l : list string) : list string :=
  match l with
  | [] => []
  | x :: r => insert_sorted x (sorted r)
  end.

(** Values a caller passes in [replacements]; [str(v)] is all the program
    asks of them. *)
Inductive pyval : Type :=
| PStr (s : string)
| PInt (n : Z)
| PBool (b : bool)
| PNone
| PObject (rendering : string).   (* any other object, with its [__str__] *)

(** [str(v)] *)
Definition py_str (v : pyval) : string :=
  match v with
  | PStr s => s
  | PInt n => NilZero.string_of_int (Z.to_int n)
  | PBool true => "True"
  | PBool false => "False"
  | PNone => "None"
  | PObject r => r
  end.

(** ** The file system *)

(** [os.stat] takes a path or an open file descriptor. *)
Inductive pathkey : Type :=
| Path (p : string)
| Fd (n : Z).

(** A file is known by what [json.load(open(...))] makes of it: the parsed
    document, or [None] when reading or parsing raises. *)
Inductive node : Type :=
| File (content : option json)
| Dir (names : list string).

Definition filesystem := pathkey -> option node.

(** How [os.stat] reads its argument: a str is a path, an int (a bool is
    one) a descriptor, which has to fit a C int; nothing else is accepted. *)
Definition os_fspath (v : json) : res pathkey :=
  match v with
  | JStr s => Ok (Path s)
  | JInt n =>
      if ((-2147483648 <=? n) && (n <=? 2147483647))%Z
      then Ok (Fd n) else Raise OverflowError
  | JBool b => Ok (Fd (if b then 1 else 0))
  | _ => Raise TypeError
  end.

(** [os.path.isdir] and [os.path.exists] answer [False] when [os.stat]
    fails with an OSError. *)
Definition os_path_isdir (fs : filesystem) (k : pathkey) : bool :=
  match fs k with Some (Dir _) => true | _ => false end.

Definition os_path_exists (fs : filesystem) (k : pathkey) : bool :=
  match fs k with Some _ => true | None => false end.

Definition os_listdir (fs : filesystem) (k : pathkey) : res (list string) :=
  match fs k with
  | Some (Dir names) => Ok names
  | Some (File _) => Raise NotADirectoryError
  | None => Raise FileNotFoundError
  end.

(** [os.path.join(a, b)] of [posixpath]; a descriptor is no path. *)
Definition os_path_join (a : pathkey) (b : string) : res string :=
  match a with
  | Fd _ => Raise TypeError
  | Path a =>
      if startswith b "/" then Ok b
      else if String.eqb a EmptyString || endswith a "/" then Ok (a ++ b)
      else Ok (a ++ "/" ++ b)
  end.

(** [json.load(open(k, "r"))] *)
Definition json_load (fs : filesystem) (k : pathkey) : res json :=
  match fs k with
  | None => Raise FileNotFoundError
  | Some (Dir _) => Raise IsADirectoryError
  | Some (File None) => Raise ValueError
  | Some (File (Some j)) => Ok j
  end.

(** ** Objects and the process state *)

(** Address of a [Language] instance. *)
Definition ref := nat.

(** A [Language] instance.  [data] is [None] while the attribute has not
    been assigned. *)
Record Language : Type := mkLanguage {
  name : json;
  author : json;
  enabled : json;
  notes : json;
  location : json;
  locale_code : string;
  data : option json
}.

(** The lines the program prints. *)
Inductive event : Type :=
| Warning_skipping_non_json (fname : string) (loc : pathkey)
| Warning_failed_to_load (fp : string)
| Warning_no_json_files (loc : pathkey) (code : string)
| Loaded_from_directory (code : string) (loc : pathkey)
| Loaded_from_file (code : string) (file_path : pathkey)
| Warning_does_not_exist (file_path : pathkey) (code : string)
| Loading_languages_from (json_path : string)
| Setting_default_language (code : string)
| Loaded_languages (codes : list string).

(** [languages] and [default_code] are the class attributes of
    [LanguageHolder]; [db_location] is never read or written. *)
Record world : Type := mkWorld {
  heap : list Language;
  languages : dict ref;
  default_code : string;
  stdout : list event
}.

(** State of a fresh interpreter. *)
Definition initial_world : world :=
  mkWorld [] [] "en_us" [].

(** Computations that may raise and that change the world. *)
Definition M (A : Type) := world -> res A * world.

Definition ret {A} (a : A) : M A := fun w => (Ok a, w).
Definition raise {A} (e : exn) : M A := fun w => (Raise e, w).
Definition bind {A B} (m : M A) (f : A -> M B) : M B :=
  fun w => match m w with
           | (Ok a, w') => f a w'
           | (Raise e, w') => (Raise e, w')
           end.
Definition lift {A} (r : res A) : M A := fun w => (r, w).

Notation "x <- m ;; k" := (bind m (fun x => k))
  (at level 61, m at next level, right associativity).
Notation "m ;;; k" := (bind m (fun _ => k))
  (at level 61, right associativity).

Definition print (e : event) : M unit :=
  fun w => (Ok tt, mkWorld (heap w) (languages w) (default_code w)
                           (stdout w ++ [e])).

(** Allocation of a new instance. *)
Definition alloc (l : Language) : M ref :=
  fun w => (Ok (length (heap w)),
            mkWorld (heap w ++ [l]) (languages w) (default_code w) (stdout w)).

Fixpoint list_set {A} (l : list A) (i : nat) (x : A) : list A :=
  match l, i with
  | [], _ => []
  | _ :: r, O => x :: r
  | y :: r, S j => y :: list_set r j x
  end.

Definition set_heap (w : world) (h : list Language) : world :=
  mkWorld h (languages w) (default_code w) (stdout w).

Definition set_languages (w : world) (d : dict ref) : world :=
  mkWorld (heap w) d (default_code w) (stdout w).

Definition set_default_code (w : world) (c : string) : world :=
  mkWorld (heap w) (languages w) c (stdout w).

Definition set_data (l : Language) (d : option json) : Language :=
  mkLanguage (name l) (author l) (enabled l) (notes l) (location l)
             (locale_code l) d.

(** ** class Language *)

(** The loop of [__read_data] over the sorted directory listing.  It
    carries the two locals [aggregated_data] and [found_any]. *)
Fixpoint read_dir_loop (fs : filesystem) (loc : pathkey)
    (fnames : list string) (aggregated_data : dict json) (found_any : bool)
    : M (dict json * bool) :=
  match fnames with
  | [] => ret (aggregated_data, found_any)
  | fname :: rest =>
      if negb (endswith fname ".json") then
        print (Warning_skipping_non_json fname loc) ;;;
        read_dir_loop fs loc rest aggregated_data found_any
      else
        fp <- lift (os_path_join loc fname) ;;
        match json_load fs (Path fp) with
        | Raise _ =>                                  (* except Exception *)
            print (Warning_failed_to_load fp) ;;;
            read_dir_loop fs loc rest aggregated_data found_any
        | Ok ld =>
            data_piece <- lift (py_get ld "data" (JObj [])) ;;
            let aggregated_data' :=
              match data_piece with
              | JObj piece => dict_update aggregated_data piece
              | _ => aggregated_data
              end in
            read_dir_loop fs loc rest aggregated_data' true
        end
  end.

(** [Language.__read_data]: the result is the [data] attribute as the
    method leaves it, [None] when it returns without assigning it. *)
Definition read_data (fs : filesystem) (loc : json) (code : string)
    : M (option json) :=
  k <- lift (os_fspath loc) ;;
  if os_path_isdir fs k then
    names <- lift (os_listdir fs k) ;;
    r <- read_dir_loop fs k (sorted names) [] false ;;
    if negb (snd r) then
      print (Warning_no_json_files k code) ;;; ret None
    else
      print (Loaded_from_directory code k) ;;; ret (Some (JObj (fst r)))
  else if os_path_exists fs k then
    lang_data <- lift (json_load fs k) ;;
    d <- lift (py_get lang_data "data" (JObj [])) ;;
    print (Loaded_from_file code k) ;;; ret (Some d)
  else
    print (Warning_does_not_exist k code) ;;; ret None.

(** [Language.__init__]: the instance becomes reachable only when the
    constructor returns. *)
Definition Language_init (fs : filesystem) (json_metadata : dict json)
    (code : string) : M ref :=
  let loc := dict_get_default json_metadata "location" (JStr EmptyString) in
  d <- read_data fs loc code ;;
  alloc (mkLanguage
           (dict_get_default json_metadata "name" (JStr "Unknown"))
           (dict_get_default json_metadata "author" (JStr "Unknown"))
           (dict_get_default json_metadata "enabled" (JBool false))
           (dict_get_default json_metadata "notes" (JStr EmptyString))
           loc code d).

(** ** LanguageHolder.get_language *)

(** [not code] for an optional str. *)
Definition code_falsy (code : option string) : bool :=
  match code with None => true | Some c => String.eqb c EmptyString end.

(** Lines 159-160: [if not code: code = LanguageHolder.default_code] *)
Definition effective_code (code : option string) (w : world) : string :=
  match code with
  | Some c => if code_falsy code then default_code w else c
  | None => default_code w
  end.

(** The second argument of the final [get] is evaluated before the call:
    [next(iter(...))] raises on an empty registry. *)
Definition get_language (code : option string) (w : world) : res ref :=
  let code := effective_code code w in
  match dict_get (languages w) code with
  | Some l => Ok l
  | None =>
      match dict_values (languages w) with
      | [] => Raise StopIteration
      | first :: _ => Ok (dict_get_default (languages w) (default_code w) first)
      end
  end.

(** ** Language.get *)

(** [self.data] *)
Definition self_data (w : world) (self : ref) : res json :=
  match nth_error (heap w) self with
  | Some l =>
      match data l with
      | Some d => Ok d
      | None => Raise AttributeError
      end
  | None => Raise AttributeError
  end.

(** [self.data[key] = v] *)
Definition set_item (self : ref) (key : string) (v : json) : M unit :=
  fun w =>
    match nth_error (heap w) self with
    | Some l =>
        match data l with
        | Some (JObj o) =>
            (Ok tt,
             set_heap w
               (list_set (heap w) self
                  (set_data l (Some (JObj (dict_set o key v))))))
        | Some _ => (Raise TypeError, w)
        | None => (Raise AttributeError, w)
        end
    | None => (Raise AttributeError, w)
    end.

(** An [Optional[str]] as a Python value. *)
Definition py_optional (default : option string) : json :=
  match default with Some s => JStr s | None => JNull end.

(** [not got or not isinstance(got, str)] *)
Definition needs_fallback (got : json) : bool :=
  negb (truthy got) || negb (is_str got).

Definition str_of (got : json) : string :=
  match got with JStr s => s | _ => EmptyString end.

(** [got.replace(f"{{{k}}}", str(v))] *)
Definition replace_placeholder (got : string) (kv : string * pyval) : string :=
  str_replace got ("{" ++ fst kv ++ "}") (py_str (snd kv)).

(** Lines 105-110: the placeholder loop runs when [replacements] is a
    non-empty dict. *)
Definition apply_replacements (replacements : option (dict pyval))
    (got : string) : string :=
  match replacements with
  | Some ((_ :: _) as items) => fold_left replace_placeholder items got
  | _ => got
  end.

Definition outcome := option (res (option string) * world).

(** One activation of [get]; [recur] is the call on the default language.
    The result is [None] when the nested call did not return. *)
Definition get_body
    (recur : ref -> string -> option string -> option (dict pyval) ->
             world -> outcome)
    (self : ref) (key : string) (default : option string)
    (replacements : option (dict pyval)) (w : world) : outcome :=
  match self_data w self with
  | Raise e => Some (Raise e, w)
  | Ok d =>
      match py_get d key (py_optional default) with
      | Raise e => Some (Raise e, w)
      | Ok got =>
          if needs_fallback got then
            match default with
            | None =>
                match get_language None w with
                | Raise e => Some (Raise e, w)
                | Ok default_lang =>
                    if Nat.eqb default_lang self then Some (Ok None, w)
                    else
                      match recur default_lang key None replacements w with
                      | None => None
                      | Some (Raise e, w') => Some (Raise e, w')
                      | Some (Ok None, w') => Some (Ok None, w')
                      | Some (Ok (Some got), w') =>
                          if String.eqb got EmptyString
                          then Some (Ok None, w')
                          else
                            match set_item self key (JStr got) w' with
                            | (Raise e, w'') => Some (Raise e, w'')
                            | (Ok _, w'') =>
                                Some (Ok (Some (apply_replacements
                                                  replacements got)), w'')
                            end
                      end
                end
            | Some dflt =>
                Some (Ok (Some (apply_replacements replacements dflt)), w)
            end
          else
            Some (Ok (Some (apply_replacements replacements (str_of got))), w)
      end
  end.

(** [Language.get] with a bound on the depth of nested calls. *)
Fixpoint get_fuel (fuel : nat) (self : ref) (key : string)
    (default : option string) (replacements : option (dict pyval))
    (w : world) : outcome :=
  match fuel with
  | O => None
  | S fuel' => get_body (get_fuel fuel') self key default replacements w
  end.

(** [Language.get]: a call nests at most one other call, on the default
    language, which nests none. *)
Definition get : ref -> string -> option string -> option (dict pyval) ->
                 world -> outcome :=
  get_fuel 2.

(** ** LanguageHolder.load_languages *)

(** The three assertions on a manifest entry. *)
Definition entry_valid (loc_dict : json) : bool :=
  match loc_dict with
  | JObj o => dict_mem o "location" && dict_mem o "name"
  | _ => false
  end.

(** [LanguageHolder.languages.clear()] *)
Definition clear_languages : M unit :=
  fun w => (Ok tt, set_languages w []).

(** [LanguageHolder.default_code = code] *)
Definition assign_default_code (code : string) : M unit :=
  fun w => (Ok tt, set_default_code w code).

(** [LanguageHolder.languages[code] = lang] *)
Definition store_language (code : string) (lang : ref) : M unit :=
  fun w => (Ok tt, set_languages w (dict_set (languages w) code lang)).

(** The body of the loop over [locations.items()]. *)
Definition load_entry (fs : filesystem) (code : string) (loc_dict : json)
    : M unit :=
  if startswith code "notes" then ret tt                        (* continue *)
  else
    match loc_dict with
    | JObj o =>
        if negb (dict_mem o "location") then raise AssertionError
        else if negb (dict_mem o "name") then raise AssertionError
        else
          (if truthy (dict_get_default o "is_default" (JBool false)) then
             print (Setting_default_language code) ;;;
             assign_default_code code
           else ret tt) ;;;
          lang <- Language_init fs o code ;;
          store_language code lang
    | _ => raise AssertionError
    end.

Fixpoint load_entries (fs : filesystem) (items : list (string * json))
    : M unit :=
  match items with
  | [] => ret tt
  | (code, loc_dict) :: rest =>
      load_entry fs code loc_dict ;;; load_entries fs rest
  end.

(** [locations.items()] *)
Definition py_items (v : json) : res (list (string * json)) :=
  match v with
  | JObj o => Ok o
  | _ => Raise AttributeError
  end.

Definition load_languages (fs : filesystem) (json_path : string) : M unit :=
  clear_languages ;;;
  if negb (os_path_exists fs (Path json_path)) then raise FileNotFoundError
  else
    print (Loading_languages_from json_path) ;;;
    locations <- lift (json_load fs (Path json_path)) ;;
    items <- lift (py_items locations) ;;
    load_entries fs items ;;;
    (fun w => print (Loaded_languages (dict_keys (languages w))) w).

(** ** Sample data *)

(** A file system given by a table of paths. *)
Fixpoint lookup_path (t : list (string * node)) (p : string) : option node :=
  match t with
  | [] => None
  | (q, n) :: r => if String.eqb q p then Some n else lookup_path r p
  end.

Definition fs_of (t : list (string * node)) : filesystem :=
  fun k => match k with Path p => lookup_path t p | Fd _ => None end.

Definition doc (d : dict json) : node := File (Some (JObj [("data", JObj d)])).

Definition meta (loc nm : string) : json :=
  JObj [("location", JStr loc); ("name", JStr nm)].

Definition meta_default (loc nm : string) : json :=
  JObj [("location", JStr loc); ("name", JStr nm); ("is_default", JBool true)].

(** What the two loaded languages hold. *)
Definition fr_data : dict json :=
  [("x", JStr "un"); ("y", JStr EmptyString); ("n", JInt 5);
   ("hello", JStr "Bonjour {name}")].

Definition en_data : dict json :=
  [("x", JStr "1"); ("y", JStr "3"); ("bye", JStr "Goodbye {name}")].

Definition sample_fs : filesystem :=
  fs_of
    [ ("language.json",
       File (Some (JObj [ ("notes", JStr "manifest");
                          ("en_us", meta_default "lang/en" "English");
                          ("fr_fr", meta "lang/fr.json" "Francais");
                          ("de_de", meta "lang/de.json" "Deutsch") ])));
      ("lang/en", Dir ["b.json"; "README.md"; "a.json"]);
      ("lang/en/a.json", doc [("x", JStr "1"); ("y", JStr "2")]);
      ("lang/en/b.json",
       doc [("y", JStr "3"); ("bye", JStr "Goodbye {name}")]);
      ("lang/fr.json",
       doc fr_data);
      ("broken.json", File None);
      ("partial.json",
       File (Some (JObj [ ("fr_fr", meta_default "lang/fr.json" "Francais");
                          ("de_de", JObj [("name", JStr "Deutsch")]) ])));
      ("lang/demo", Dir ["b.json"; "a.json"]);
      ("lang/demo/a.json", doc [("x", JStr "1"); ("y", JStr "2")]);
      ("lang/demo/b.json", doc [("y", JStr "3")]);
      ("lang/partly", Dir ["ok.json"; "bad.json"]);
      ("lang/partly/bad.json", File None);
      ("lang/partly/ok.json", doc [("x", JStr "1")]);
      ("lang/mixed", Dir ["list.json"; "a.json"]);
      ("lang/mixed/a.json", doc [("x", JStr "1")]);
      ("lang/mixed/list.json", File (Some (JArr [JStr "x"])));
      ("mixed.json",
       File (Some (JObj [ ("en_us", meta "lang/mixed" "English") ]))) ].

(** The registry once [language.json] has been loaded. *)
Definition loaded_world : world :=
  snd (load_languages sample_fs "language.json" initial_world).

(** ** The directory scan, file by file *)

(** What the loop of [__read_data] makes of one directory entry. *)
Inductive entry_status : Type :=
| Not_json                        (* the name does not end in .json *)
| Unreadable                      (* [json.load(open(fp))] raised *)
| Not_an_object                   (* parsed, but the document is no dict *)
| Fragment (piece : dict json).   (* parsed; the object under "data" *)

(** The object under key ["data"] of a parsed document; a missing or
    non-dict value contributes nothing. *)
Definition data_object (o : dict json) : dict json :=
  match dict_get o "data" with
  | Some (JObj piece) => piece
  | _ => []
  end.

Definition dir_entry (fs : filesystem) (loc fname : string) : entry_status :=
  if negb (endswith fname ".json") then Not_json
  else
    match os_path_join (Path loc) fname with
    | Raise _ => Unreadable
    | Ok fp =>
        match json_load fs (Path fp) with
        | Raise _ => Unreadable
        | Ok (JObj o) => Fragment (data_object o)
        | Ok _ => Not_an_object
        end
    end.

Definition is_not_an_object (s : entry_status) : bool :=
  match s with Not_an_object => true | _ => false end.

Definition is_fragment (s : entry_status) : bool :=
  match s with Fragment _ => true | _ => false end.

(** The fragments of the files that parse, in the order of [fnames]. *)
Definition fragments (fs : filesystem) (loc : string) (fnames : list string)
    : list (dict json) :=
  flat_map (fun fname => match dir_entry fs loc fname with
                         | Fragment piece => [piece]
                         | _ => []
                         end) fnames.

(** The value of the last pair of [d] with key [k]; [d.update(other)]
    goes through [other] pair by pair, so the last one stays. *)
Fixpoint dict_get_last {V} (d : dict V) (k : string) : option V :=
  match d with
  | [] => None
  | (k', v) :: r =>
      match dict_get_last r k with
      | Some v' => Some v'
      | None => if String.eqb k' k then Some v else None
      end
  end.

(** The binding of [k] in the last of [pieces] that has one. *)
Definition latest (k : string) (pieces : list (dict json)) : option json :=
  fold_left (fun found piece => match dict_get_last piece k with
                                | Some v => Some v
                                | None => found
                                end) pieces None.

(** Lexicographic order on file names. *)
Definition name_le (a b : string) : Prop := String.leb a b = true.

(** Two worlds that differ at most in what has been printed. *)
Definition same_state (w w' : world) : Prop :=
  heap w' = heap w /\ languages w' = languages w /\
  default_code w' = default_code w.

(** ** What a reload leaves behind *)

(** The codes the loop of [load_languages] stores: all but the ones that
    start with ["notes"]. *)
Definition stored_codes (items : list (string * json)) : list string :=
  filter (fun c => negb (startswith c "notes")) (map fst items).

(** [loc_dict.get("is_default", False)] is truthy. *)
Definition flags_default (entry : json) : bool :=
  match entry with
  | JObj o => truthy (dict_get_default o "is_default" (JBool false))
  | _ => false
  end.

(** [default_code] once the loop has been through [items]: the last
    flagged entry wins. *)
Definition last_default (old : string) (items : list (string * json))
    : string :=
  fold_left (fun d ce => if startswith (fst ce) "notes" then d
                         else if flags_default (snd ce) then fst ce else d)
            items old.

(** A location that yields no data: nothing is there, or a directory in
    which no [.json] file parses. *)
Definition no_usable_source (fs : filesystem) (loc : string) : Prop :=
  fs (Path loc) = None \/
  exists names,
    fs (Path loc) = Some (Dir names) /\
    existsb (fun f => is_fragment (dir_entry fs loc f)) names = false /\
    existsb (fun f => is_not_an_object (dir_entry fs loc f)) names = false.

(** What the loading code may do to the world: print, and raise anything but an
    assertion. *)
Definition quiet {A} (w : world) (out : res A * world) : Prop :=
  same_state w (snd out) /\ fst out <> Raise AssertionError.

(** ** Statements under test *)


(** "A [load_languages] that fails for a missing manifest or for an
    entry without [location] or [name] leaves the old registry or the
    complete new one, and leaves [default_code] alone." *)
Definition load_failure_atomic (fs : filesystem) (json_path : string)
    (w : world) : Prop :=
  forall e w',
    load_languages fs json_path w = (Raise e, w') ->
    e = FileNotFoundError \/ e = AssertionError ->
    (languages w' = languages w \/
     exists w0 w1, load_languages fs json_path w0 = (Ok tt, w1) /\
                   languages w' = languages w1) /\
    default_code w' = default_code w.

(** ** Further statements *)

(** [old] occurs in [s]. *)
Definition occurs (old s : string) : Prop :=
  exists a b, s = a ++ old ++ b.

(** What line 89 sends to the fallback: under [key] there is nothing, or
    a value that is empty or no str. *)
Definition unusable (o : dict json) (key : string) : bool :=
  needs_fallback (dict_get_default o key JNull).

(** Every entry of the registry names an instance of the heap that
    carries the code it is stored under. *)
Definition registry_wf (w : world) : Prop :=
  forall c l,
    dict_get (languages w) c = Some l ->
    exists lang, nth_error (heap w) l = Some lang /\ locale_code lang = c.

(** The error of a manifest that exists and is no JSON object. *)
Definition manifest_error (nd : node) : exn :=
  match nd with
  | Dir _ => IsADirectoryError
  | File None => ValueError
  | File (Some _) => AttributeError
  end.

Definition is_manifest (nd : node) : bool :=
  match nd with File (Some (JObj _)) => true | _ => false end.

(** A second sample: two instances in the registry, and a third one that
    a caller built on its own; the registry of [orphan_world] is empty. *)
Definition lang_of (code : string) (d : option json) : Language :=
  mkLanguage (JStr code) (JStr "Unknown") (JBool false) (JStr EmptyString)
             (JStr EmptyString) code d.

Definition demo_world : world :=
  mkWorld
    [ lang_of "en" (Some (JObj [("greet", JStr "{name}");
                                ("n", JInt 3)]));
      lang_of "fr" (Some (JObj [("n", JStr EmptyString)]));
      lang_of "xx" (Some (JArr [])) ]
    [("en", 0); ("fr", 1)] "en" [].

Definition orphan_world : world :=
  mkWorld [ lang_of "fr" (Some (JObj [("x", JStr "un")])) ] [] "en_us" [].

(** The world a call leaves. *)
Definition world_after (o : outcome) (w : world) : world :=
  match o with Some (_, w1) => w1 | None => w end.

Definition alice : option (dict pyval) := Some [("name", PStr "Alice")].

Definition after_bye : world :=
  world_after (get 1 "bye" None alice loaded_world) loaded_world.

(** [old in s] *)
Fixpoint occursb (old s : string) : bool :=
  match s with
  | EmptyString => String.prefix old EmptyString
  | String _ s' => String.prefix old s || occursb old s'
  end.

(** No placeholder of [r] occurs in [s]. *)
Definition placeholders_absent (r : option (dict pyval)) (s : string) : bool :=
  match r with
  | Some items =>
      forallb (fun kv => negb (occursb ("{" ++ fst kv ++ "}") s)) items
  | None => true
  end.

(** [s] has no opening brace. *)
Fixpoint no_open_brace (s : string) : bool :=
  match s with
  | EmptyString => true
  | String c s' => negb (Ascii.eqb c "{") && no_open_brace s'
  end.

(** The sample manifest loaded a second time. *)
Definition reloaded_world : world :=
  snd (load_languages sample_fs "language.json" after_bye).

(** The entries of the sample manifest [language.json]. *)
Definition sample_manifest : list (string * json) :=
  [ ("notes", JStr "manifest");
    ("en_us", meta_default "lang/en" "English");
    ("fr_fr", meta "lang/fr.json" "Francais");
    ("de_de", meta "lang/de.json" "Deutsch") ].

(** A file system in which [data.json] holds a list under ["data"]. *)
Definition list_data_fs : filesystem :=
  fs_of [ ("data.json",
           File (Some (JObj [("data", JArr [JStr "x"; JStr "y"])]))) ].

(** The file system in which [os.listdir(loc)] answers [names]. *)
Definition relist (fs : filesystem) (loc : string) (names : list string)
    : filesystem :=
  fun k => match k with
           | Path p => if String.eqb p loc then Some (Dir names) else fs k
           | Fd _ => fs k
           end.

(** A [location] that [os.stat] rejects for its type: neither a str nor
    an int. *)
Definition not_a_path (v : json) : bool :=
  match v with
  | JNull | JFloat _ _ | JArr _ | JObj _ => true
  | _ => false
  end.

(** "The fallback string with the placeholder substitutions of [r]
    applied": every pair of [r], in order, replaces its [{k}] by
    [str(v)]; without replacements the string is the template. *)
Definition substituted (r : option (dict pyval)) (t : string) : string :=
  match r with
  | Some items =>
      fold_left (fun s kv => str_replace s ("{" ++ fst kv ++ "}")
                                         (py_str (snd kv))) items t
  | None => t
  end.

(** * Properties *)

(** ** dict and list facts *)

Lemma dict_get_set_same {V} (d : dict V) k v :
  dict_get (dict_set d k v) k = Some v.
Proof.
  induction d as [|[k' v'] r IH]; simpl.
  - now rewrite String.eqb_refl.
  - destruct (String.eqb k' k) eqn:E; simpl; rewrite E; auto.
Qed.

Lemma dict_get_set_other {V} (d : dict V) k k' v :
  k <> k' -> dict_get (dict_set d k v) k' = dict_get d k'.
Proof.
  intros Hne. induction d as [|[k0 v0] r IH]; simpl.
  - destruct (String.eqb k k') eqn:E; auto.
    apply String.eqb_eq in E. contradiction.
  - destruct (String.eqb k0 k) eqn:E; simpl.
    + apply String.eqb_eq in E; subst k0.
      destruct (String.eqb k k') eqn:E'; auto.
      apply String.eqb_eq in E'. contradiction.
    + now rewrite IH.
Qed.

Lemma nth_error_list_set_same {A} (l : list A) i x y :
  nth_error l i = Some y -> nth_error (list_set l i x) i = Some x.
Proof.
  revert i.
  induction l as [|a l IH]; intros [|i]; simpl; try discriminate; auto.
Qed.

Lemma nth_error_list_set_other {A} (l : list A) i j x :
  i <> j -> nth_error (list_set l i x) j = nth_error l j.
Proof.
  revert i j. induction l as [|a l IH]; intros [|i] [|j] H; simpl; auto.
  contradiction.
Qed.

Lemma needs_fallback_false got :
  needs_fallback got = false -> exists s, got = JStr s /\ s <> EmptyString.
Proof.
  unfold needs_fallback. destruct got; simpl; try discriminate;
    try (rewrite orb_true_r; discriminate).
  rewrite orb_false_r. intros H. exists s. split; auto.
  intros ->. discriminate.
Qed.

Lemma needs_fallback_str s :
  s <> EmptyString -> needs_fallback (JStr s) = false.
Proof.
  intros H. unfold needs_fallback. simpl.
  destruct (String.eqb s EmptyString) eqn:E; auto.
  apply String.eqb_eq in E. contradiction.
Qed.

(** ** get_language *)

Lemma get_language_empty code w :
  languages w = [] -> get_language code w = Raise StopIteration.
Proof.
  intros H. unfold get_language. now rewrite H.
Qed.

Lemma dict_get_in_values {V} (d : dict V) k v :
  dict_get d k = Some v -> In v (dict_values d).
Proof.
  induction d as [|[k' v'] r IH]; simpl; try discriminate.
  destruct (String.eqb k' k); intros H; [left; congruence | right; auto].
Qed.

(** The two lookups of [get_language] for the code [k] it settles on. *)
Lemma get_language_lookup w k :
  languages w <> [] ->
  exists l,
    match dict_get (languages w) k with
    | Some l0 => Ok l0
    | None =>
        match dict_values (languages w) with
        | [] => Raise StopIteration
        | first :: _ =>
            Ok (dict_get_default (languages w) (default_code w) first)
        end
    end = Ok l /\
    In l (dict_values (languages w)) /\
    (forall x, dict_get (languages w) k = Some x -> l = x) /\
    (dict_get (languages w) k = None ->
     match dict_get (languages w) (default_code w) with
     | Some x => l = x
     | None => exists c rest, languages w = (c, l) :: rest
     end).
Proof.
  intros Hne.
  destruct (dict_get (languages w) k) as [x|] eqn:Hc.
  - exists x. split; [reflexivity|]. split; [|split].
    + eapply dict_get_in_values; eauto.
    + intros y Hy. congruence.
    + discriminate.
  - destruct (languages w) as [|[c first] rest] eqn:Hl; [contradiction|].
    cbn [dict_values map snd]. unfold dict_get_default.
    destruct (dict_get ((c, first) :: rest) (default_code w)) as [x|] eqn:Hd.
    + exists x. split; [reflexivity|]. split; [|split].
      * change (In x (dict_values ((c, first) :: rest))).
        eapply dict_get_in_values; eauto.
      * discriminate.
      * reflexivity.
    + exists first. split; [reflexivity|]. split; [now left|]. split.
      * discriminate.
      * intros _. now exists c, rest.
Qed.

(** C7: with a non-empty registry [get_language] returns a loaded
    [Language] for every code, [None] and the empty code included: for a
    non-empty code that is in the registry, the entry of that code; for
    no code, the empty code or a code that is not in the registry, the
    entry of [default_code] when there is one, else the first entry of
    the registry; it raises only on an empty registry. *)
Theorem get_language_never_raises_when_loaded (code : option string)
    (w : world) :
  (languages w <> [] ->
   exists l, get_language code w = Ok l /\
     In l (dict_values (languages w)) /\
     (forall c x, code = Some c -> c <> EmptyString ->
        dict_get (languages w) c = Some x -> l = x) /\
     (code = None \/ code = Some EmptyString \/
      (exists c, code = Some c /\ dict_get (languages w) c = None) ->
      match dict_get (languages w) (default_code w) with
      | Some x => l = x
      | None => exists c rest, languages w = (c, l) :: rest
      end)) /\
  (forall e, get_language code w = Raise e ->
             languages w = [] /\ e = StopIteration).
Proof.
  split.
  - intros Hne.
    assert (Hdefault :
      forall l,
        (forall x, dict_get (languages w) (default_code w) = Some x -> l = x) ->
        (dict_get (languages w) (default_code w) = None ->
         match dict_get (languages w) (default_code w) with
         | Some x => l = x
         | None => exists c rest, languages w = (c, l) :: rest
         end) ->
        match dict_get (languages w) (default_code w) with
        | Some x => l = x
        | None => exists c rest, languages w = (c, l) :: rest
        end).
    { intros l Hsome Hnone.
      destruct (dict_get (languages w) (default_code w)) as [x|] eqn:Hd.
      - now apply Hsome.
      - now apply Hnone. }
    destruct code as [c|].
    + destruct (String.eqb c EmptyString) eqn:Ec.
      * apply String.eqb_eq in Ec. subst c.
        destruct (get_language_lookup w (default_code w) Hne)
          as [l [Hget [Hin [Hsome Hnone]]]].
        exists l. split; [exact Hget|]. split; [exact Hin|]. split.
        -- intros c x Hc Hnonempty. injection Hc as <-. contradiction.
        -- intros _. now apply Hdefault.
      * destruct (get_language_lookup w c Hne)
          as [l [Hget [Hin [Hsome Hnone]]]].
        exists l. split.
        { unfold get_language, effective_code, code_falsy.
          rewrite Ec. exact Hget. }
        split; [exact Hin|]. split.
        -- intros c' x Hc _ Hx. injection Hc as <-. now apply Hsome.
        -- intros [Hc|[Hc|[c' [Hc Habsent]]]].
           ++ discriminate Hc.
           ++ injection Hc as ->. discriminate Ec.
           ++ injection Hc as <-. now apply Hnone.
    + destruct (get_language_lookup w (default_code w) Hne)
        as [l [Hget [Hin [Hsome Hnone]]]].
      exists l. split; [exact Hget|]. split; [exact Hin|]. split.
      * intros c x Hc. discriminate Hc.
      * intros _. now apply Hdefault.
  - intros e. unfold get_language.
    destruct (dict_get (languages w) (effective_code code w)); [discriminate|].
    destruct (languages w) as [|[c first] rest]; simpl.
    + intros H. injection H as <-. auto.
    + discriminate.
Qed.

Lemma get_language_never_raises_when_loaded_witness :
  exists l, get_language (Some "fr_fr") loaded_world = Ok l /\
     In l (dict_values (languages loaded_world)) /\
     (forall c x, Some "fr_fr" = Some c -> c <> EmptyString ->
        dict_get (languages loaded_world) c = Some x -> l = x) /\
     (Some "fr_fr" = None \/ Some "fr_fr" = Some EmptyString \/
      (exists c, Some "fr_fr" = Some c /\
                 dict_get (languages loaded_world) c = None) ->
      match dict_get (languages loaded_world) (default_code loaded_world) with
      | Some x => l = x
      | None => exists c rest, languages loaded_world = (c, l) :: rest
      end).
Proof.
  apply (proj1 (get_language_never_raises_when_loaded (Some "fr_fr")
                  loaded_world)).
  vm_compute. discriminate.
Defined.

(** On the loaded sample: a code of the registry gets its own entry, an
    unknown code, the empty code and no code get the default [en_us]. *)
Example get_language_on_the_sample :
  languages loaded_world = [("en_us", 0); ("fr_fr", 1); ("de_de", 2)] /\
  get_language (Some "fr_fr") loaded_world = Ok 1 /\
  get_language (Some "de_de") loaded_world = Ok 2 /\
  get_language (Some "pt_br") loaded_world = Ok 0 /\
  get_language (Some EmptyString) loaded_world = Ok 0 /\
  get_language None loaded_world = Ok 0.
Proof. repeat split. Qed.

(** ** get *)

Lemma self_data_inv w self d :
  self_data w self = Ok d ->
  exists l, nth_error (heap w) self = Some l /\ data l = Some d.
Proof.
  unfold self_data.
  destruct (nth_error (heap w) self) as [l|]; try discriminate.
  destruct (data l) as [d'|] eqn:E; try discriminate.
  intros H. injection H as <-. eauto.
Qed.

(** A stored non-empty string is returned at once: neither the registry
    nor the nested call is looked at. *)
Lemma get_body_hit recur self key default r w o s :
  self_data w self = Ok (JObj o) ->
  dict_get o key = Some (JStr s) ->
  s <> EmptyString ->
  get_body recur self key default r w
  = Some (Ok (Some (apply_replacements r s)), w).
Proof.
  intros Hd Hk Hs. unfold get_body. rewrite Hd. simpl.
  unfold dict_get_default. rewrite Hk.
  now rewrite (needs_fallback_str s Hs).
Qed.

(** The call on the instance that the registry resolves as the default
    never reaches the nested call and leaves the world as it is. *)
Lemma get_body_on_default recur dl key r w :
  get_language None w = Ok dl ->
  exists out,
    get_body recur dl key None r w = Some (out, w) /\
    forall recur', get_body recur' dl key None r w = Some (out, w).
Proof.
  intros Hdl. unfold get_body. rewrite Hdl, Nat.eqb_refl.
  destruct (self_data w dl) as [d|e]; [|eauto].
  destruct (py_get d key (py_optional None)) as [got|e]; [|eauto].
  destruct (needs_fallback got); eauto.
Qed.

Lemma get_fuel_S fuel self key default r w :
  get_fuel (S fuel) self key default r w
  = get_body (get_fuel fuel) self key default r w.
Proof. reflexivity. Qed.

Lemma get_fuel_on_default n dl key r w :
  get_language None w = Ok dl ->
  get_fuel (S n) dl key None r w = get_fuel 1 dl key None r w.
Proof.
  intros Hdl. rewrite !get_fuel_S.
  destruct (get_body_on_default (get_fuel n) dl key r w Hdl) as [out [H1 H2]].
  now rewrite H1, H2.
Qed.

(** More than two activations change nothing. *)
Lemma get_fuel_stable n self key default r w :
  get_fuel (S (S n)) self key default r w = get self key default r w.
Proof.
  unfold get. rewrite (get_fuel_S (S n)), (get_fuel_S 1). unfold get_body.
  destruct (self_data w self) as [d|e]; [|reflexivity].
  destruct (py_get d key (py_optional default)) as [got|e]; [|reflexivity].
  destruct (needs_fallback got); [|reflexivity].
  destruct default; [reflexivity|].
  destruct (get_language None w) as [dl|e] eqn:Hdl; [|reflexivity].
  destruct (Nat.eqb dl self); [reflexivity|].
  now rewrite (get_fuel_on_default n dl key r w Hdl).
Qed.

Lemma get_returns self key default r w :
  exists out, get self key default r w = Some out.
Proof.
  unfold get. rewrite (get_fuel_S 1). unfold get_body.
  destruct (self_data w self) as [d|e]; [|eauto].
  destruct (py_get d key (py_optional default)) as [got|e]; [|eauto].
  destruct (needs_fallback got); [|eauto].
  destruct default; [eauto|].
  destruct (get_language None w) as [dl|e] eqn:Hdl; [|eauto].
  destruct (Nat.eqb dl self); [eauto|].
  rewrite get_fuel_S.
  destruct (get_body_on_default (get_fuel 0) dl key r w Hdl) as [out [H1 _]].
  rewrite H1. destruct out as [[got'|]|e]; eauto.
  destruct (String.eqb got' EmptyString); eauto.
  destruct (set_item self key (JStr got') w) as [[u|e] w'']; eauto.
Qed.

(** C6: [get] returns on every input, two nested activations being
    enough; on the instance the registry resolves as the default, a key
    missing from its data and no [default] give [None], and the world is
    left as it was, whatever the bound on the depth. *)
Theorem get_terminates (self : ref) (key : string) (default : option string)
    (r : option (dict pyval)) (w : world) :
  (exists out, forall n, get_fuel (S (S n)) self key default r w = Some out) /\
  (forall d n,
     get_language None w = Ok self ->
     self_data w self = Ok (JObj d) ->
     dict_get d key = None ->
     get_fuel (S n) self key None r w = Some (Ok None, w)).
Proof.
  split.
  - destruct (get_returns self key default r w) as [out Hout].
    exists out. intros n. now rewrite get_fuel_stable.
  - intros d n Hdl Hd Hk. rewrite get_fuel_S. unfold get_body.
    rewrite Hd. simpl. unfold dict_get_default. rewrite Hk. simpl.
    now rewrite Hdl, Nat.eqb_refl.
Qed.

Lemma get_terminates_witness :
  get_fuel 1 0 "missing.key" None None loaded_world
  = Some (Ok None, loaded_world).
Proof.
  apply (proj2 (get_terminates 0 "missing.key" None None loaded_world)
               en_data 0);
    reflexivity.
Defined.

Lemma self_data_list_set w self l d :
  nth_error (heap w) self = Some l ->
  self_data (set_heap w (list_set (heap w) self (set_data l (Some d)))) self
  = Ok d.
Proof.
  intros H. unfold self_data. simpl.
  now rewrite (nth_error_list_set_same _ _ _ _ H).
Qed.

(** The miss on a language other than the default: the nested call
    answers from the default language's data, the answer is stored under
    [key] and goes through the placeholder loop once more. *)
Lemma get_fallback n self dl key r w l o od t :
  get_language None w = Ok dl ->
  dl <> self ->
  nth_error (heap w) self = Some l ->
  data l = Some (JObj o) ->
  needs_fallback (dict_get_default o key JNull) = true ->
  self_data w dl = Ok (JObj od) ->
  dict_get od key = Some (JStr t) ->
  t <> EmptyString ->
  apply_replacements r t <> EmptyString ->
  get_fuel (S (S n)) self key None r w
  = Some (Ok (Some (apply_replacements r (apply_replacements r t))),
          set_heap w
            (list_set (heap w) self
               (set_data l
                  (Some (JObj (dict_set o key
                                 (JStr (apply_replacements r t)))))))).
Proof.
  intros Hdl Hne Hl Ho Hfb Hd Hk Ht Hrt.
  rewrite get_fuel_S. unfold get_body at 1.
  unfold self_data at 1. rewrite Hl, Ho. simpl py_get. cbv iota beta.
  simpl py_optional. rewrite Hfb, Hdl.
  destruct (Nat.eqb dl self) eqn:E.
  { apply Nat.eqb_eq in E. contradiction. }
  rewrite get_fuel_S, (get_body_hit _ dl key None r w od t Hd Hk Ht).
  destruct (String.eqb (apply_replacements r t) EmptyString) eqn:E'.
  { apply String.eqb_eq in E'. contradiction. }
  unfold set_item. now rewrite Hl, Ho.
Qed.




(** C5: a key absent from a language other than the default and mapped to
    a non-empty string by the default language is answered with the
    default language's string, which is stored under that key in the
    calling instance; from then on the instance answers on its own,
    without the nested call, whatever has become of the default language
    and of the registry. *)
Theorem fallback_value_is_cached (self dl : ref) (key s : string)
    (o od : dict json) (w : world) :
  get_language None w = Ok dl ->
  dl <> self ->
  self_data w self = Ok (JObj o) ->
  dict_get o key = None ->
  self_data w dl = Ok (JObj od) ->
  dict_get od key = Some (JStr s) ->
  s <> EmptyString ->
  exists w1,
    (forall n, get_fuel (S (S n)) self key None None w
               = Some (Ok (Some s), w1)) /\
    self_data w1 self = Ok (JObj (dict_set o key (JStr s))) /\
    (forall w2, self_data w2 self = self_data w1 self ->
       (forall n, get_fuel (S n) self key None None w2
                  = Some (Ok (Some s), w2)) /\
       (forall recur, get_body recur self key None None w2
                      = Some (Ok (Some s), w2))).
Proof.
  intros Hdl Hne Hd Hk Hdd Hdk Hs.
  destruct (self_data_inv w self _ Hd) as [l [Hl Ho]].
  assert (Hfb : needs_fallback (dict_get_default o key JNull) = true).
  { unfold dict_get_default. now rewrite Hk. }
  eexists. split; [|split].
  - intros n.
    apply (get_fallback n self dl key None w l o od s
             Hdl Hne Hl Ho Hfb Hdd Hdk Hs Hs).
  - apply self_data_list_set. exact Hl.
  - intros w2 Hw2.
    rewrite (self_data_list_set w self l _ Hl) in Hw2.
    assert (Hhit : forall recur, get_body recur self key None None w2
                                 = Some (Ok (Some s), w2)).
    { intros recur.
      apply (get_body_hit recur self key None None w2
               (dict_set o key (JStr s)) s Hw2
               (dict_get_set_same o key _) Hs). }
    split; [intros n; rewrite get_fuel_S|]; auto.
Qed.

Lemma fallback_value_is_cached_witness :
  exists w1,
    (forall n, get_fuel (S (S n)) 1 "bye" None None loaded_world
               = Some (Ok (Some "Goodbye {name}"), w1)) /\
    self_data w1 1
    = Ok (JObj (dict_set fr_data "bye" (JStr "Goodbye {name}"))) /\
    (forall w2, self_data w2 1 = self_data w1 1 ->
       (forall n, get_fuel (S n) 1 "bye" None None w2
                  = Some (Ok (Some "Goodbye {name}"), w2)) /\
       (forall recur, get_body recur 1 "bye" None None w2
                      = Some (Ok (Some "Goodbye {name}"), w2))).
Proof.
  apply (fallback_value_is_cached 1 0 "bye" "Goodbye {name}"
           fr_data en_data loaded_world);
    try reflexivity; discriminate.
Defined.

(** The placeholder loop of lines 105-110 computes [substituted]. *)
Lemma apply_replacements_substituted r t :
  apply_replacements r t = substituted r t.
Proof. destruct r as [[|kv items]|]; reflexivity. Qed.

(** C9: when a miss is answered by the default language, the string
    stored in the calling instance is the default language's template
    with the placeholders of [r] already replaced, so it is not the raw
    template whenever the replacements change it; a later call with other
    replacements works on that stored string. *)
Theorem fallback_caches_substituted_string (self dl : ref) (key t : string)
    (o od : dict json) (r : option (dict pyval)) (w : world) :
  get_language None w = Ok dl ->
  dl <> self ->
  self_data w self = Ok (JObj o) ->
  needs_fallback (dict_get_default o key JNull) = true ->
  self_data w dl = Ok (JObj od) ->
  dict_get od key = Some (JStr t) ->
  t <> EmptyString ->
  substituted r t <> EmptyString ->
  exists w1,
    (forall n, get_fuel (S (S n)) self key None r w
               = Some (Ok (Some (substituted r (substituted r t))), w1)) /\
    self_data w1 self
    = Ok (JObj (dict_set o key (JStr (substituted r t)))) /\
    (forall o1, self_data w1 self = Ok (JObj o1) ->
       dict_get o1 key = Some (JStr (substituted r t)) /\
       (substituted r t <> t -> dict_get o1 key <> Some (JStr t))) /\
    (forall r2 w2, self_data w2 self = self_data w1 self ->
       forall n, get_fuel (S n) self key None r2 w2
                 = Some (Ok (Some (substituted r2 (substituted r t))), w2)).
Proof.
  intros Hdl Hne Hd Hfb Hdd Hdk Ht Hrt.
  rewrite <- !apply_replacements_substituted.
  rewrite <- apply_replacements_substituted in Hrt.
  destruct (self_data_inv w self _ Hd) as [l [Hl Ho]].
  eexists. split; [|split; [|split]].
  - intros n.
    apply (get_fallback n self dl key r w l o od t
             Hdl Hne Hl Ho Hfb Hdd Hdk Ht Hrt).
  - apply self_data_list_set. exact Hl.
  - intros o1 Ho1.
    rewrite (self_data_list_set w self l _ Hl) in Ho1.
    injection Ho1 as <-. rewrite dict_get_set_same. split; [reflexivity|].
    intros Hchanged H. injection H as H. contradiction.
  - intros r2 w2 Hw2 n.
    rewrite (self_data_list_set w self l _ Hl) in Hw2.
    rewrite get_fuel_S, <- apply_replacements_substituted.
    apply (get_body_hit _ self key None r2 w2
             (dict_set o key (JStr (apply_replacements r t)))
             (apply_replacements r t) Hw2 (dict_get_set_same o key _) Hrt).
Qed.

Lemma fallback_caches_substituted_string_witness :
  exists w1,
    (forall n, get_fuel (S (S n)) 1 "bye" None
                 (Some [("name", PStr "Alice")]) loaded_world
               = Some (Ok (Some "Goodbye Alice"), w1)) /\
    self_data w1 1
    = Ok (JObj [("x", JStr "un"); ("y", JStr EmptyString); ("n", JInt 5);
                ("hello", JStr "Bonjour {name}");
                ("bye", JStr "Goodbye Alice")]) /\
    (forall o1, self_data w1 1 = Ok (JObj o1) ->
       dict_get o1 "bye" = Some (JStr "Goodbye Alice") /\
       ("Goodbye Alice" <> "Goodbye {name}" ->
        dict_get o1 "bye" <> Some (JStr "Goodbye {name}"))) /\
    (forall r2 w2, self_data w2 1 = self_data w1 1 ->
       forall n, get_fuel (S n) 1 "bye" None r2 w2
                 = Some (Ok (Some (substituted r2 "Goodbye Alice")), w2)).
Proof.
  exact (fallback_caches_substituted_string 1 0 "bye" "Goodbye {name}"
           fr_data en_data (Some [("name", PStr "Alice")]) loaded_world
           eq_refl (fun H => O_S 0 H) eq_refl eq_refl eq_refl eq_refl
           (fun H => eq_ind "Goodbye {name}"
                       (fun s => match s with
                                 | EmptyString => False
                                 | String _ _ => True
                                 end) I EmptyString H)
           (fun H => eq_ind "Goodbye Alice"
                       (fun s => match s with
                                 | EmptyString => False
                                 | String _ _ => True
                                 end) I EmptyString H)).
Defined.

(** The stored string of the sample: ["Goodbye Alice"], so that a later
    call for Bob still greets Alice. *)
Example cached_string_keeps_first_replacements :
  exists w1,
    get 1 "bye" None (Some [("name", PStr "Alice")]) loaded_world
    = Some (Ok (Some "Goodbye Alice"), w1) /\
    self_data w1 1
    = Ok (JObj (fr_data ++ [("bye", JStr "Goodbye Alice")])%list) /\
    get 1 "bye" None (Some [("name", PStr "Bob")]) w1
    = Some (Ok (Some "Goodbye Alice"), w1).
Proof.
  eexists. split; [vm_compute; reflexivity|]. split; reflexivity.
Qed.

(** ** sorted *)

Lemma insert_sorted_perm x l : Permutation (x :: l) (insert_sorted x l).
Proof.
  induction l as [|y r IH]; simpl; auto.
  destruct (String.leb x y); auto.
  eapply perm_trans; [apply perm_swap|]. now constructor.
Qed.

Lemma sorted_perm l : Permutation l (sorted l).
Proof.
  induction l as [|x r IH]; simpl; auto.
  eapply perm_trans; [|apply insert_sorted_perm]. now constructor.
Qed.

Lemma insert_sorted_hd x y l :
  name_le y x -> HdRel name_le y l -> HdRel name_le y (insert_sorted x l).
Proof.
  intros Hyx Hl. destruct l as [|z r]; simpl.
  - now constructor.
  - destruct (String.leb x z); constructor; auto.
    now inversion Hl.
Qed.

Lemma insert_sorted_ordered x l :
  Sorted name_le l -> Sorted name_le (insert_sorted x l).
Proof.
  induction 1 as [|y r Hr IH Hhd]; simpl.
  - repeat constructor.
  - destruct (String.leb x y) eqn:E.
    + constructor; [now constructor|]. now constructor.
    + constructor; auto. apply insert_sorted_hd; auto.
      destruct (String.leb_total x y) as [H|H]; [congruence|exact H].
Qed.

Lemma sorted_ordered l : Sorted name_le (sorted l).
Proof.
  induction l; simpl; [constructor|]. now apply insert_sorted_ordered.
Qed.

(** ** dict.update *)

Lemma dict_get_set {V} (d : dict V) k k' v :
  dict_get (dict_set d k v) k'
  = if String.eqb k k' then Some v else dict_get d k'.
Proof.
  destruct (String.eqb k k') eqn:E.
  - apply String.eqb_eq in E. subst. apply dict_get_set_same.
  - apply dict_get_set_other. intros ->. now rewrite String.eqb_refl in E.
Qed.

Lemma dict_get_update {V} (other d : dict V) k :
  dict_get (dict_update d other) k
  = match dict_get_last other k with
    | Some v => Some v
    | None => dict_get d k
    end.
Proof.
  unfold dict_update. revert d.
  induction other as [|[k0 v0] r IH]; intros d; simpl; auto.
  rewrite IH. destruct (dict_get_last r k); auto.
  rewrite dict_get_set. now destruct (String.eqb k0 k).
Qed.

Lemma dict_get_last_unique {V} (d : dict V) k :
  NoDup (dict_keys d) -> dict_get_last d k = dict_get d k.
Proof.
  induction d as [|[k0 v0] r IH]; simpl; auto.
  intros H. inversion H as [|? ? Hnotin Hr]; subst.
  rewrite (IH Hr). destruct (String.eqb k0 k) eqn:E.
  - apply String.eqb_eq in E. subst k0.
    destruct (dict_get r k) as [v|] eqn:Hg; auto.
    exfalso. apply Hnotin. clear -Hg.
    induction r as [|[k1 v1] r IH]; simpl in *; [discriminate|].
    destruct (String.eqb k1 k) eqn:E;
      [left; now apply String.eqb_eq|right; auto].
  - destruct (dict_get r k); auto.
Qed.

Lemma merged_lookup (pieces : list (dict json)) (acc : dict json) k :
  dict_get (fold_left dict_update pieces acc) k
  = fold_left (fun found piece => match dict_get_last piece k with
                                  | Some v => Some v
                                  | None => found
                                  end) pieces (dict_get acc k).
Proof.
  revert acc. induction pieces as [|p r IH]; intros acc; simpl; auto.
  now rewrite IH, dict_get_update.
Qed.

(** ** The directory loop *)

Lemma same_state_refl w : same_state w w.
Proof. repeat split. Qed.

Lemma same_state_trans w1 w2 w3 :
  same_state w1 w2 -> same_state w2 w3 -> same_state w1 w3.
Proof.
  unfold same_state. intros [? [? ?]] [? [? ?]]. repeat split; congruence.
Qed.

Lemma same_state_print e w : same_state w (snd (print e w)).
Proof. repeat split. Qed.

Lemma os_path_join_path loc fname :
  exists fp, os_path_join (Path loc) fname = Ok fp.
Proof.
  unfold os_path_join. destruct (startswith fname "/"); eauto.
  destruct (String.eqb loc EmptyString || endswith loc "/"); eauto.
Qed.

Lemma dict_update_nil {V} (d : dict V) : dict_update d [] = d.
Proof. reflexivity. Qed.

Lemma read_dir_loop_unfold fs loc fname rest agg found :
  read_dir_loop fs loc (fname :: rest) agg found
  = if negb (endswith fname ".json") then
      print (Warning_skipping_non_json fname loc) ;;;
      read_dir_loop fs loc rest agg found
    else
      fp <- lift (os_path_join loc fname) ;;
      match json_load fs (Path fp) with
      | Raise _ =>
          print (Warning_failed_to_load fp) ;;;
          read_dir_loop fs loc rest agg found
      | Ok ld =>
          data_piece <- lift (py_get ld "data" (JObj [])) ;;
          read_dir_loop fs loc rest
            match data_piece with
            | JObj piece => dict_update agg piece
            | _ => agg
            end true
      end.
Proof. reflexivity. Qed.

(** One turn of the loop, read off the status of the entry. *)
Lemma read_dir_loop_cons fs loc fname rest agg found w :
  exists w', same_state w w' /\
    read_dir_loop fs (Path loc) (fname :: rest) agg found w
    = match dir_entry fs loc fname with
      | Not_an_object => (Raise AttributeError, w)
      | Fragment piece =>
          read_dir_loop fs (Path loc) rest (dict_update agg piece) true w
      | _ => read_dir_loop fs (Path loc) rest agg found w'
      end.
Proof.
  unfold dir_entry. rewrite read_dir_loop_unfold.
  destruct (endswith fname ".json"); cbn [negb].
  2:{ exists (snd (print (Warning_skipping_non_json fname (Path loc)) w)).
      split; [apply same_state_print|reflexivity]. }
  destruct (os_path_join_path loc fname) as [fp Hfp]. rewrite Hfp.
  unfold bind at 1. unfold lift at 1.
  destruct (json_load fs (Path fp)) as [ld|e].
  2:{ exists (snd (print (Warning_failed_to_load fp) w)).
      split; [apply same_state_print|reflexivity]. }
  exists w. split; [apply same_state_refl|].
  destruct ld; try reflexivity.
  unfold bind, lift, py_get, data_object, dict_get_default.
  destruct (dict_get o "data") as [[]|]; reflexivity.
Qed.

Lemma os_fspath_no_assertion v e :
  os_fspath v = Raise e -> e <> AssertionError.
Proof.
  destruct v; simpl; try (intros H; injection H as <-; discriminate);
    try discriminate.
  destruct ((-2147483648 <=? n)%Z && (n <=? 2147483647)%Z);
    [discriminate|intros H; injection H as <-; discriminate].
Qed.

Lemma os_path_join_no_assertion k f e :
  os_path_join k f = Raise e -> e <> AssertionError.
Proof.
  destruct k; simpl.
  - destruct (startswith f "/"); [discriminate|].
    destruct (String.eqb p EmptyString || endswith p "/"); discriminate.
  - intros H. injection H as <-. discriminate.
Qed.

Lemma py_get_no_assertion v k d e :
  py_get v k d = Raise e -> e <> AssertionError.
Proof.
  destruct v; simpl; try discriminate;
    intros H; injection H as <-; discriminate.
Qed.

Lemma json_load_no_assertion fs k e :
  json_load fs k = Raise e -> e <> AssertionError.
Proof.
  unfold json_load. destruct (fs k) as [[[j|]|]|]; try discriminate;
    intros H; injection H as <-; discriminate.
Qed.

Lemma quiet_raise {A} w e : e <> AssertionError -> @quiet A w (Raise e, w).
Proof. intros H. split; [apply same_state_refl|]. simpl. congruence. Qed.

Lemma quiet_ok {A} w (a : A) : quiet w (Ok a, w).
Proof. split; [apply same_state_refl|discriminate]. Qed.

Lemma quiet_print {A} e w (m : M A) :
  (forall w1, quiet w1 (m w1)) -> quiet w (bind (print e) (fun _ => m) w).
Proof.
  intros H. unfold bind, print.
  match goal with |- quiet _ (m ?w1) => destruct (H w1) as [Hs Hn] end.
  split; [|exact Hn]. eapply same_state_trans; [|exact Hs]. repeat split.
Qed.

Lemma quiet_lift {A B} (r : res A) (f : A -> M B) w :
  (forall e, r = Raise e -> e <> AssertionError) ->
  (forall a, r = Ok a -> quiet w (f a w)) ->
  quiet w (bind (lift r) f w).
Proof.
  intros Hr Hf. unfold bind, lift. destruct r as [a|e].
  - now apply Hf.
  - apply quiet_raise. now apply Hr.
Qed.

Lemma quiet_bind {A B} (m : M A) (f : A -> M B) w :
  quiet w (m w) -> (forall a w1, quiet w1 (f a w1)) -> quiet w (bind m f w).
Proof.
  intros [Hs Hn] Hf. unfold bind. destruct (m w) as [[a|e] w1]; simpl in *.
  - destruct (Hf a w1) as [Hs1 Hn1]. split; [|exact Hn1].
    eapply same_state_trans; eauto.
  - split; [exact Hs|]. simpl. intros H. injection H as ->. now apply Hn.
Qed.

(** The loop prints and raises, and does nothing else to the world; it
    has no assertion. *)
Lemma read_dir_loop_effect fs k fnames agg found w :
  quiet w (read_dir_loop fs k fnames agg found w).
Proof.
  revert agg found w. induction fnames as [|f rest IH]; intros agg found w.
  - apply quiet_ok.
  - rewrite read_dir_loop_unfold.
    destruct (negb (endswith f ".json")).
    + apply quiet_print. intros w1. apply IH.
    + apply quiet_lift; [apply os_path_join_no_assertion|].
      intros fp _. destruct (json_load fs (Path fp)) as [ld|e].
      * apply quiet_lift; [apply py_get_no_assertion|].
        intros dp _. apply IH.
      * apply quiet_print. intros w1. apply IH.
Qed.

Lemma read_dir_loop_same_state fs loc fnames agg found w :
  same_state w (snd (read_dir_loop fs (Path loc) fnames agg found w)).
Proof. apply read_dir_loop_effect. Qed.

(** When every parsed document is an object the loop runs to its end and
    has merged the fragments in the order of the listing. *)
Lemma read_dir_loop_merges fs loc fnames agg found w :
  existsb (fun f => is_not_an_object (dir_entry fs loc f)) fnames = false ->
  fst (read_dir_loop fs (Path loc) fnames agg found w)
  = Ok (fold_left dict_update (fragments fs loc fnames) agg,
        found || existsb (fun f => is_fragment (dir_entry fs loc f)) fnames).
Proof.
  revert agg found w. induction fnames as [|f rest IH]; intros agg found w H.
  - simpl. now rewrite orb_false_r.
  - simpl in H. apply orb_false_iff in H. destruct H as [Hf Hrest].
    destruct (read_dir_loop_cons fs loc f rest agg found w) as [w' [_ ->]].
    unfold fragments. simpl.
    destruct (dir_entry fs loc f); try discriminate; simpl;
      rewrite (IH _ _ _ Hrest); try reflexivity.
    now rewrite orb_true_r.
Qed.

(** A parsed document that is no object stops the loop, wherever it
    stands in the listing. *)
Lemma read_dir_loop_not_an_object fs loc fnames agg found w :
  existsb (fun f => is_not_an_object (dir_entry fs loc f)) fnames = true ->
  fst (read_dir_loop fs (Path loc) fnames agg found w) = Raise AttributeError.
Proof.
  revert agg found w. induction fnames as [|f rest IH]; intros agg found w H.
  - discriminate.
  - simpl in H.
    destruct (read_dir_loop_cons fs loc f rest agg found w) as [w' [_ ->]].
    destruct (dir_entry fs loc f); simpl in H; auto.
Qed.

Lemma existsb_permutation {A} (f : A -> bool) l l' :
  Permutation l l' -> existsb f l = existsb f l'.
Proof.
  induction 1; simpl; auto.
  - now rewrite IHPermutation.
  - destruct (f x), (f y); reflexivity.
  - congruence.
Qed.

Lemma read_data_dir fs loc names code w :
  fs (Path loc) = Some (Dir names) ->
  exists w1 w2, same_state w w1 /\ same_state w1 w2 /\
    read_data fs (JStr loc) code w
    = match read_dir_loop fs (Path loc) (sorted names) [] false w with
      | (Ok (agg, found), _) =>
          (Ok (if found then Some (JObj agg) else None), w2)
      | (Raise e, _) => (Raise e, w1)
      end.
Proof.
  intros Hfs. unfold read_data, os_fspath, os_path_isdir, os_listdir.
  unfold bind at 1. unfold lift at 1. rewrite Hfs.
  unfold bind at 1. unfold lift at 1. unfold bind at 1.
  pose proof (read_dir_loop_same_state fs loc (sorted names) [] false w) as Hs.
  destruct (read_dir_loop fs (Path loc) (sorted names) [] false w)
    as [[[agg found]|e] w1]; simpl in Hs.
  - destruct found; simpl; eexists w1, _; (split; [exact Hs|]);
      (split; [apply same_state_print|reflexivity]).
  - exists w1, w1. auto using same_state_refl.
Qed.

(** ** Exceptions go up *)

Lemma bind_raise {A B} (m : M A) (f : A -> M B) w e :
  fst (m w) = Raise e -> fst (bind m f w) = Raise e.
Proof.
  unfold bind. destruct (m w) as [[a|e'] w']; simpl; congruence.
Qed.

Lemma bind_ok {A B} (m : M A) (f : A -> M B) w a w' :
  m w = (Ok a, w') -> bind m f w = f a w'.
Proof. unfold bind. now intros ->. Qed.

(** C8: a directory is loaded by merging, in lexicographic order of the
    file names, the object under ["data"] of every [.json] file that
    parses; a key bound in several files keeps the value of the last of
    them.  With [a.json] holding [x = 1, y = 2] and [b.json] holding
    [y = 3] the result is [x = 1, y = 3]. *)
Theorem directory_merge_in_filename_order (fs : filesystem) (loc : string)
    (names : list string) (code : string) (w : world) :
  fs (Path loc) = Some (Dir names) ->
  existsb (fun f => is_not_an_object (dir_entry fs loc f)) names = false ->
  existsb (fun f => is_fragment (dir_entry fs loc f)) names = true ->
  fst (read_data fs (JStr loc) code w)
  = Ok (Some (JObj (fold_left dict_update
                      (fragments fs loc (sorted names)) []))) /\
  (forall k, dict_get (fold_left dict_update
                         (fragments fs loc (sorted names)) []) k
             = latest k (fragments fs loc (sorted names))) /\
  Sorted name_le (sorted names) /\
  Permutation names (sorted names).
Proof.
  intros Hfs Hobj Hfound.
  rewrite (existsb_permutation _ _ _ (sorted_perm names)) in Hobj.
  rewrite (existsb_permutation _ _ _ (sorted_perm names)) in Hfound.
  split; [|split; [|split]].
  - destruct (read_data_dir fs loc names code w Hfs) as [w1 [w2 [_ [_ ->]]]].
    pose proof (read_dir_loop_merges fs loc (sorted names) [] false w Hobj)
      as Hloop.
    destruct (read_dir_loop fs (Path loc) (sorted names) [] false w)
      as [[[agg found]|e] w']; simpl in Hloop; [|discriminate].
    injection Hloop as -> ->. simpl. now rewrite Hfound.
  - intros k. apply merged_lookup.
  - apply sorted_ordered.
  - apply sorted_perm.
Qed.

Lemma directory_merge_in_filename_order_witness :
  fst (read_data sample_fs (JStr "lang/demo") "en_us" initial_world)
  = Ok (Some (JObj [("x", JStr "1"); ("y", JStr "3")])) /\
  (forall k, dict_get [("x", JStr "1"); ("y", JStr "3")] k
             = latest k [ [("x", JStr "1"); ("y", JStr "2")];
                          [("y", JStr "3")] ]) /\
  Sorted name_le ["a.json"; "b.json"] /\
  Permutation ["b.json"; "a.json"] ["a.json"; "b.json"].
Proof.
  exact (directory_merge_in_filename_order sample_fs "lang/demo"
           ["b.json"; "a.json"] "en_us" initial_world
           eq_refl eq_refl eq_refl).
Defined.

Lemma dir_entry_not_an_object fs loc fname fp j :
  endswith fname ".json" = true ->
  os_path_join (Path loc) fname = Ok fp ->
  fs (Path fp) = Some (File (Some j)) ->
  is_dict j = false ->
  dir_entry fs loc fname = Not_an_object.
Proof.
  intros He Hj Hf Hd. unfold dir_entry, json_load.
  rewrite He, Hj, Hf. simpl. destruct j; try reflexivity. discriminate.
Qed.

Lemma load_entries_raises fs code entry items :
  (forall w, exists e, fst (load_entry fs code entry w) = Raise e) ->
  In (code, entry) items ->
  forall w, exists e, fst (load_entries fs items w) = Raise e.
Proof.
  intros Hbad. induction items as [|[c x] rest IH]; intros Hin w.
  - contradiction.
  - simpl. unfold bind.
    destruct (load_entry fs c x w) as [[[]|e] w'] eqn:E; simpl; [|eauto].
    destruct Hin as [Heq|Hin].
    + injection Heq as -> ->. destruct (Hbad w) as [e He].
      rewrite E in He. discriminate.
    + apply IH; auto.
Qed.

(** [load_languages] on a manifest that exists and holds an object. *)
Lemma load_languages_manifest fs json_path items w :
  fs (Path json_path) = Some (File (Some (JObj items))) ->
  load_languages fs json_path w
  = bind (load_entries fs items)
         (fun _ w' => print (Loaded_languages (dict_keys (languages w'))) w')
         (snd (print (Loading_languages_from json_path)
                     (set_languages w []))).
Proof.
  intros Hm. unfold load_languages, os_path_exists, json_load.
  rewrite Hm. cbn [negb]. reflexivity.
Qed.

Lemma load_languages_missing fs json_path w :
  fs (Path json_path) = None ->
  load_languages fs json_path w
  = (Raise FileNotFoundError, set_languages w []).
Proof.
  intros Hm. unfold load_languages, os_path_exists.
  rewrite Hm. reflexivity.
Qed.

(** C10: in a directory, a [.json] file that parses to something other
    than an object is not skipped: reading ["data"] from it raises
    [AttributeError], which ends [__read_data], the construction of the
    [Language] and a [load_languages] that has such an entry. *)
Theorem non_object_document_aborts_load (fs : filesystem) (loc : string)
    (names : list string) (o : dict json) (code : string) (w : world) :
  fs (Path loc) = Some (Dir names) ->
  (exists fname fp j,
     In fname names /\ endswith fname ".json" = true /\
     os_path_join (Path loc) fname = Ok fp /\
     fs (Path fp) = Some (File (Some j)) /\ is_dict j = false) ->
  dict_get o "location" = Some (JStr loc) ->
  dict_mem o "name" = true ->
  startswith code "notes" = false ->
  fst (read_data fs (JStr loc) code w) = Raise AttributeError /\
  fst (Language_init fs o code w) = Raise AttributeError /\
  fst (load_entry fs code (JObj o) w) = Raise AttributeError /\
  (forall json_path items,
     fs (Path json_path) = Some (File (Some (JObj items))) ->
     In (code, JObj o) items ->
     exists e, fst (load_languages fs json_path w) = Raise e).
Proof.
  intros Hfs [fname [fp [j [Hin [He [Hj [Hf Hd]]]]]]] Hloc Hname Hnotes.
  assert (Hbad : existsb (fun f => is_not_an_object (dir_entry fs loc f))
                         (sorted names) = true).
  { apply existsb_exists. exists fname. split.
    - eapply Permutation_in; [apply sorted_perm|exact Hin].
    - now rewrite (dir_entry_not_an_object fs loc fname fp j He Hj Hf Hd). }
  assert (Hread : forall c w0,
             fst (read_data fs (JStr loc) c w0) = Raise AttributeError).
  { intros c w0.
    destruct (read_data_dir fs loc names c w0 Hfs) as [w1 [w2 [_ [_ ->]]]].
    pose proof (read_dir_loop_not_an_object fs loc (sorted names) [] false
                  w0 Hbad) as Hloop.
    destruct (read_dir_loop fs (Path loc) (sorted names) [] false w0)
      as [[[agg found]|e] w']; simpl in Hloop; [discriminate|].
    simpl. congruence. }
  assert (Hinit : forall w0,
             fst (Language_init fs o code w0) = Raise AttributeError).
  { intros w0. unfold Language_init. apply bind_raise.
    unfold dict_get_default. rewrite Hloc. apply Hread. }
  assert (Hentry : forall w0,
             fst (load_entry fs code (JObj o) w0) = Raise AttributeError).
  { intros w0. unfold load_entry. rewrite Hnotes.
    unfold dict_mem at 1. rewrite Hloc. rewrite Hname. cbn [negb].
    destruct (truthy (dict_get_default o "is_default" (JBool false))).
    - unfold bind at 1. unfold bind at 1. unfold print at 1.
      unfold assign_default_code at 1. apply bind_raise, Hinit.
    - unfold bind at 1. unfold ret at 1. apply bind_raise, Hinit. }
  repeat split; auto.
  intros json_path items Hm Hitems.
  rewrite (load_languages_manifest fs json_path items w Hm).
  destruct (load_entries_raises fs code (JObj o) items
              (fun w1 => ex_intro _ AttributeError (Hentry w1)) Hitems
              (snd (print (Loading_languages_from json_path)
                          (set_languages w [])))) as [e Hraise].
  exists e. now apply bind_raise.
Qed.

Lemma non_object_document_aborts_load_witness :
  fst (read_data sample_fs (JStr "lang/mixed") "en_us" initial_world)
  = Raise AttributeError /\
  fst (Language_init sample_fs
         [("location", JStr "lang/mixed"); ("name", JStr "English")]
         "en_us" initial_world) = Raise AttributeError /\
  fst (load_entry sample_fs "en_us" (meta "lang/mixed" "English")
         initial_world) = Raise AttributeError /\
  (forall json_path items,
     sample_fs (Path json_path) = Some (File (Some (JObj items))) ->
     In ("en_us", meta "lang/mixed" "English") items ->
     exists e, fst (load_languages sample_fs json_path initial_world)
               = Raise e).
Proof.
  apply (non_object_document_aborts_load sample_fs "lang/mixed"
           ["list.json"; "a.json"]
           [("location", JStr "lang/mixed"); ("name", JStr "English")]
           "en_us" initial_world); try reflexivity.
  exists "list.json", "lang/mixed/list.json", (JArr [JStr "x"]).
  repeat split; simpl; auto.
Defined.

(** The sample manifest [mixed.json] never gets past its directory. *)
Example mixed_manifest_raises :
  fst (load_languages sample_fs "mixed.json" loaded_world)
  = Raise AttributeError.
Proof. reflexivity. Qed.

(** ** Construction and reload *)

Lemma read_data_effect fs loc code w : quiet w (read_data fs loc code w).
Proof.
  unfold read_data.
  apply quiet_lift; [apply os_fspath_no_assertion|]. intros k _.
  destruct (os_path_isdir fs k) eqn:Hdir.
  - apply quiet_lift.
    { unfold os_listdir, os_path_isdir in *.
      destruct (fs k) as [[|]|]; try discriminate. }
    intros names _. apply quiet_bind; [apply read_dir_loop_effect|].
    intros r w1. destruct (negb (snd r)); apply quiet_print;
      intros w2; apply quiet_ok.
  - destruct (os_path_exists fs k).
    + apply quiet_lift; [apply json_load_no_assertion|]. intros ld _.
      apply quiet_lift; [apply py_get_no_assertion|]. intros d _.
      apply quiet_print. intros w1. apply quiet_ok.
    + apply quiet_print. intros w1. apply quiet_ok.
Qed.

(** The constructor adds one object to the heap, at the next address, and
    leaves the registry alone. *)
Lemma Language_init_effect fs o code w :
  match Language_init fs o code w with
  | (Ok l, w') =>
      l = length (heap w) /\
      (exists lang, heap w' = (heap w ++ [lang])%list /\
                    locale_code lang = code) /\
      languages w' = languages w /\ default_code w' = default_code w
  | (Raise e, w') => same_state w w' /\ e <> AssertionError
  end.
Proof.
  unfold Language_init, bind.
  destruct (read_data_effect fs
              (dict_get_default o "location" (JStr EmptyString)) code w)
    as [[Hh [Hl Hd]] Hn].
  destruct (read_data fs
              (dict_get_default o "location" (JStr EmptyString)) code w)
    as [[d|e] w1]; simpl in *.
  - rewrite Hh. split; [reflexivity|]. split; [|split; assumption].
    eexists. split; reflexivity.
  - split; [repeat split; assumption|]. congruence.
Qed.

(** One turn of the loop of [load_languages]. *)
Lemma load_entry_effect fs code entry w :
  match load_entry fs code entry w with
  | (Ok _, w') =>
      if startswith code "notes" then w' = w
      else entry_valid entry = true /\
           languages w' = dict_set (languages w) code (length (heap w)) /\
           default_code w'
           = (if flags_default entry then code else default_code w)
  | (Raise e, w') =>
      startswith code "notes" = false /\
      if entry_valid entry then e <> AssertionError
      else e = AssertionError /\ w' = w
  end.
Proof.
  unfold load_entry. destruct (startswith code "notes"); [reflexivity|].
  destruct entry as [| | | | | |o]; try (simpl; auto; fail).
  cbn [entry_valid flags_default].
  destruct (dict_mem o "location"); cbn [negb andb]; [|simpl; auto].
  destruct (dict_mem o "name"); cbn [negb]; [|simpl; auto].
  destruct (truthy (dict_get_default o "is_default" (JBool false))).
  - unfold bind at 1. unfold bind at 1. unfold print at 1.
    unfold assign_default_code at 1. unfold bind.
    match goal with
    | |- context [Language_init fs o code ?w1] =>
        pose proof (Language_init_effect fs o code w1) as H;
        destruct (Language_init fs o code w1) as [[l|e] w2]
    end; simpl in *.
    + destruct H as [-> [_ [Hl Hd]]]. rewrite Hl, Hd. auto.
    + tauto.
  - unfold bind at 1. unfold ret at 1. unfold bind.
    pose proof (Language_init_effect fs o code w) as H.
    destruct (Language_init fs o code w) as [[l|e] w2]; simpl in *.
    + destruct H as [-> [_ [Hl Hd]]]. rewrite Hl, Hd. auto.
    + tauto.
Qed.

Lemma dict_mem_set {V} (d : dict V) k k' v :
  dict_mem (dict_set d k v) k' = String.eqb k k' || dict_mem d k'.
Proof.
  unfold dict_mem. rewrite dict_get_set.
  destruct (String.eqb k k'); reflexivity.
Qed.

(** A reload that goes through [items] has stored their codes, and the
    last flagged one is the default. *)
Lemma load_entries_ok fs items w w' :
  load_entries fs items w = (Ok tt, w') ->
  (forall c, dict_mem (languages w') c = true <->
             dict_mem (languages w) c = true \/ In c (stored_codes items)) /\
  default_code w' = last_default (default_code w) items.
Proof.
  revert w. induction items as [|[code entry] rest IH]; intros w.
  - simpl. unfold ret. intros H. injection H as <-.
    split; [|reflexivity]. intros c. simpl. tauto.
  - simpl load_entries. unfold bind.
    pose proof (load_entry_effect fs code entry w) as He.
    destruct (load_entry fs code entry w) as [[[]|e] w1]; [|discriminate].
    intros Hrest. destruct (IH w1 Hrest) as [Hmem Hdef].
    unfold stored_codes, last_default in *. simpl.
    destruct (startswith code "notes") eqn:Hn; simpl.
    + subst w1. split; assumption.
    + destruct He as [_ [Hl Hd]]. rewrite Hdef, Hd. split; [|reflexivity].
      intros c. rewrite Hmem, Hl, dict_mem_set.
      rewrite orb_true_iff, String.eqb_eq. tauto.
Qed.

(** A reload that stops on an assertion has gone through the entries
    before the offending one, and through nothing else. *)
Lemma load_entries_assertion fs items w w' :
  load_entries fs items w = (Raise AssertionError, w') ->
  exists pre code entry post,
    items = (pre ++ (code, entry) :: post)%list /\
    startswith code "notes" = false /\
    entry_valid entry = false /\
    load_entries fs pre w = (Ok tt, w').
Proof.
  revert w. induction items as [|[code entry] rest IH]; intros w.
  - discriminate.
  - simpl load_entries. unfold bind.
    pose proof (load_entry_effect fs code entry w) as He.
    destruct (load_entry fs code entry w) as [[[]|e] w1] eqn:E.
    + intros Hrest.
      destruct (IH w1 Hrest) as [pre [c [x [post [-> [Hn [Hv Hpre]]]]]]].
      exists ((code, entry) :: pre), c, x, post.
      repeat split; auto. simpl. unfold bind. now rewrite E.
    + intros H. injection H as -> ->. destruct He as [Hn Hv].
      destruct (entry_valid entry) eqn:Hvalid; [contradiction|].
      destruct Hv as [_ ->].
      exists [], code, entry, rest. auto.
Qed.

(** C1, amended: [load_languages] clears the registry first and is not
    atomic.  When it fails because the manifest does not exist, the
    registry is empty afterwards and [default_code] is the old one.  When
    it fails on an assertion, some entry is not an object with [location]
    and [name]; the registry then holds the codes of the entries before
    that one ([notes] keys aside) and nothing of the old registry, and
    [default_code] is the last of them flagged [is_default], or the old
    one when none is. *)
Theorem load_languages_failure_state (fs : filesystem) (json_path : string)
    (w w' : world) (e : exn) :
  load_languages fs json_path w = (Raise e, w') ->
  (fs (Path json_path) = None ->
   e = FileNotFoundError /\ languages w' = [] /\
   default_code w' = default_code w /\ heap w' = heap w) /\
  (e = AssertionError ->
   exists items pre code entry post,
     fs (Path json_path) = Some (File (Some (JObj items))) /\
     items = (pre ++ (code, entry) :: post)%list /\
     startswith code "notes" = false /\
     entry_valid entry = false /\
     (forall c, dict_mem (languages w') c = true <-> In c (stored_codes pre)) /\
     default_code w' = last_default (default_code w) pre).
Proof.
  intros Hload. split.
  - intros Hm. rewrite (load_languages_missing fs json_path w Hm) in Hload.
    injection Hload as <- <-. auto.
  - intros ->.
    destruct (fs (Path json_path)) as [[[j|]|names]|] eqn:Hm.
    + destruct j as [| | | | | |items];
        try (unfold load_languages, os_path_exists, json_load in Hload;
             rewrite Hm in Hload; discriminate).
      rewrite (load_languages_manifest fs json_path items w Hm) in Hload.
      unfold bind in Hload.
      destruct (load_entries fs items
                  (snd (print (Loading_languages_from json_path)
                              (set_languages w [])))) as [[[]|e] w1] eqn:E.
      * discriminate.
      * injection Hload as -> ->.
        destruct (load_entries_assertion fs items _ _ E)
          as [pre [code [entry [post [Hi [Hn [Hv Hpre]]]]]]].
        destruct (load_entries_ok fs pre _ _ Hpre) as [Hmem Hdef].
        exists items, pre, code, entry, post.
        repeat split; auto.
        -- intros H. apply Hmem in H. destruct H as [H|H]; [discriminate|auto].
        -- intros H. apply Hmem. now right.
    + unfold load_languages, os_path_exists, json_load in Hload.
      rewrite Hm in Hload. discriminate.
    + unfold load_languages, os_path_exists, json_load in Hload.
      rewrite Hm in Hload. discriminate.
    + rewrite (load_languages_missing fs json_path w Hm) in Hload.
      discriminate.
Qed.

Lemma load_languages_failure_state_witness :
  (sample_fs (Path "partial.json") = None ->
   AssertionError = FileNotFoundError /\
   languages (snd (load_languages sample_fs "partial.json" loaded_world))
   = [] /\
   default_code (snd (load_languages sample_fs "partial.json" loaded_world))
   = default_code loaded_world /\
   heap (snd (load_languages sample_fs "partial.json" loaded_world))
   = heap loaded_world) /\
  (AssertionError = AssertionError ->
   exists items pre code entry post,
     sample_fs (Path "partial.json") = Some (File (Some (JObj items))) /\
     items = (pre ++ (code, entry) :: post)%list /\
     startswith code "notes" = false /\
     entry_valid entry = false /\
     (forall c,
        dict_mem (languages
                    (snd (load_languages sample_fs "partial.json"
                            loaded_world))) c = true
        <-> In c (stored_codes pre)) /\
     default_code (snd (load_languages sample_fs "partial.json" loaded_world))
     = last_default (default_code loaded_world) pre).
Proof.
  apply (load_languages_failure_state sample_fs "partial.json" loaded_world
           (snd (load_languages sample_fs "partial.json" loaded_world))
           AssertionError).
  reflexivity.
Defined.

(** What the two failures of the sample leave: an empty registry after a
    missing manifest; after [partial.json], the one entry before the
    invalid one, which has also become the default. *)
Example failed_reloads_of_the_sample :
  languages loaded_world = [("en_us", 0); ("fr_fr", 1); ("de_de", 2)] /\
  default_code loaded_world = "en_us" /\
  (exists w', load_languages sample_fs "missing.json" loaded_world
              = (Raise FileNotFoundError, w') /\
              languages w' = [] /\ default_code w' = "en_us") /\
  (exists w', load_languages sample_fs "partial.json" loaded_world
              = (Raise AssertionError, w') /\
              languages w' = [("fr_fr", 3)] /\ default_code w' = "fr_fr").
Proof.
  split; [reflexivity|]. split; [reflexivity|].
  split; eexists; (split; [vm_compute; reflexivity|]); split; reflexivity.
Qed.

(** C1 as written fails: after a reload from a missing manifest the
    registry is empty, and after a reload that stops at an invalid entry
    [default_code] has changed. *)
Lemma load_languages_is_not_atomic :
  ~ load_failure_atomic sample_fs "missing.json" loaded_world /\
  ~ load_failure_atomic sample_fs "partial.json" loaded_world.
Proof.
  split; intros H.
  - destruct (H FileNotFoundError (set_languages loaded_world [])
                eq_refl (or_introl eq_refl)) as [[Hl|[w0 [w1 [Hl _]]]] _].
    + discriminate Hl.
    + rewrite (load_languages_missing sample_fs "missing.json" w0 eq_refl)
        in Hl.
      discriminate Hl.
  - destruct (H AssertionError
                (snd (load_languages sample_fs "partial.json" loaded_world))
                eq_refl (or_intror eq_refl)) as [_ Hd].
    vm_compute in Hd. discriminate Hd.
Qed.

(** ** Languages without data *)

Lemma read_data_no_usable_source fs loc code w :
  no_usable_source fs loc ->
  exists w1, same_state w w1 /\
             read_data fs (JStr loc) code w = (Ok None, w1).
Proof.
  intros [Hm|[names [Hd [Hfrag Hobj]]]].
  - exists (snd (print (Warning_does_not_exist (Path loc) code) w)).
    split; [apply same_state_print|].
    unfold read_data, os_path_isdir, os_path_exists, bind, lift. simpl.
    now rewrite Hm.
  - rewrite (existsb_permutation _ _ _ (sorted_perm names)) in Hfrag.
    rewrite (existsb_permutation _ _ _ (sorted_perm names)) in Hobj.
    destruct (read_data_dir fs loc names code w Hd) as [w1 [w2 [H1 [H2 ->]]]].
    pose proof (read_dir_loop_merges fs loc (sorted names) [] false w Hobj)
      as Hloop.
    destruct (read_dir_loop fs (Path loc) (sorted names) [] false w)
      as [[[agg found]|e] w0]; simpl in Hloop; [|discriminate].
    injection Hloop as -> ->. rewrite Hfrag. simpl.
    exists w2. split; [|reflexivity]. eapply same_state_trans; eauto.
Qed.

Lemma nth_error_snoc {A} (l : list A) x :
  nth_error (l ++ [x]) (length l) = Some x.
Proof.
  rewrite nth_error_app2 by lia. now rewrite Nat.sub_diag.
Qed.

(** C2, as the code has it: a [Language] whose location is missing, or is
    a directory without a usable [.json] file, is built without a [data]
    attribute, and every [get] on it raises [AttributeError] at its
    first line, before any fallback, in every world that holds the
    instance unchanged. *)
Theorem get_on_language_without_data_raises (fs : filesystem)
    (o : dict json) (code loc : string) (w : world) :
  dict_get o "location" = Some (JStr loc) ->
  no_usable_source fs loc ->
  exists w',
    Language_init fs o code w = (Ok (length (heap w)), w') /\
    forall w2, nth_error (heap w2) (length (heap w))
               = nth_error (heap w') (length (heap w)) ->
      forall n key default r,
        get_fuel (S n) (length (heap w)) key default r w2
        = Some (Raise AttributeError, w2).
Proof.
  intros Hloc Hsrc.
  destruct (read_data_no_usable_source fs loc code w Hsrc)
    as [w1 [[Hh _] Hread]].
  unfold Language_init, dict_get_default. rewrite Hloc.
  rewrite (bind_ok _ _ _ _ _ Hread). unfold alloc. rewrite Hh.
  eexists. split; [reflexivity|].
  intros w2 Hw2 n key default r. cbn [heap] in Hw2.
  rewrite nth_error_snoc in Hw2.
  rewrite get_fuel_S. unfold get_body, self_data. now rewrite Hw2.
Qed.

Lemma get_on_language_without_data_raises_witness :
  exists w',
    Language_init sample_fs
      [("location", JStr "lang/de.json"); ("name", JStr "Deutsch")]
      "de_de" initial_world = (Ok (length (heap initial_world)), w') /\
    forall w2, nth_error (heap w2) (length (heap initial_world))
               = nth_error (heap w') (length (heap initial_world)) ->
      forall n key default r,
        get_fuel (S n) (length (heap initial_world)) key default r w2
        = Some (Raise AttributeError, w2).
Proof.
  apply (get_on_language_without_data_raises sample_fs
           [("location", JStr "lang/de.json"); ("name", JStr "Deutsch")]
           "de_de" "lang/de.json" initial_world).
  - reflexivity.
  - left. reflexivity.
Defined.

(** In the loaded sample [de_de] has no file: a lookup on it raises, with
    or without a [default]. *)
Example get_on_de_de_raises :
  get 2 "x" None None loaded_world
  = Some (Raise AttributeError, loaded_world) /\
  get 2 "x" (Some "fallback") None loaded_world
  = Some (Raise AttributeError, loaded_world).
Proof. split; reflexivity. Qed.

(** ** Files that do not parse *)

(** C3, as the code has it: the single-file branch of [__read_data] has
    no handler, so a location that is a file which does not parse makes
    the construction of the [Language] raise the parser's exception. *)
Theorem malformed_single_file_raises (fs : filesystem) (o : dict json)
    (code loc : string) (w : world) :
  dict_get o "location" = Some (JStr loc) ->
  fs (Path loc) = Some (File None) ->
  read_data fs (JStr loc) code w = (Raise ValueError, w) /\
  Language_init fs o code w = (Raise ValueError, w).
Proof.
  intros Hloc Hf.
  assert (Hread : read_data fs (JStr loc) code w = (Raise ValueError, w)).
  { unfold read_data, os_path_isdir, os_path_exists, json_load, bind, lift.
    simpl. now rewrite Hf. }
  split; [exact Hread|].
  unfold Language_init, dict_get_default. rewrite Hloc.
  unfold bind. now rewrite Hread.
Qed.

Lemma malformed_single_file_raises_witness :
  read_data sample_fs (JStr "broken.json") "xx_xx" initial_world
  = (Raise ValueError, initial_world) /\
  Language_init sample_fs
    [("location", JStr "broken.json"); ("name", JStr "Broken")]
    "xx_xx" initial_world = (Raise ValueError, initial_world).
Proof.
  apply (malformed_single_file_raises sample_fs
           [("location", JStr "broken.json"); ("name", JStr "Broken")]
           "xx_xx" "broken.json" initial_world); reflexivity.
Defined.

(** The directory branch does have the handler: the file that does not
    parse is reported and the other one is loaded. *)
Example directory_skips_malformed_file :
  read_data sample_fs (JStr "lang/partly") "xx_xx" initial_world
  = (Ok (Some (JObj [("x", JStr "1")])),
     mkWorld [] [] "en_us"
       [Warning_failed_to_load "lang/partly/bad.json";
        Loaded_from_directory "xx_xx" (Path "lang/partly")]).
Proof. reflexivity. Qed.

(** * Further properties *)

(** ** Lookups *)

Lemma unusable_spec o key :
  unusable o key = true <->
  (forall s, dict_get o key = Some (JStr s) -> s = EmptyString).
Proof.
  unfold unusable, dict_get_default. split.
  - intros H s Hs. rewrite Hs in H.
    destruct (String.eqb s EmptyString) eqn:E; [now apply String.eqb_eq|].
    apply String.eqb_neq in E. now rewrite (needs_fallback_str s E) in H.
  - intros H. destruct (dict_get o key) as [v|]; [|reflexivity].
    destruct (needs_fallback v) eqn:E; [reflexivity|].
    destruct (needs_fallback_false v E) as [s [-> Hs]].
    now specialize (H s eq_refl).
Qed.




(** X2: a key that neither the language nor the default language can
    answer gives [None], and nothing is stored. *)
Theorem get_miss_everywhere (self dl : ref) (key : string)
    (r : option (dict pyval)) (o od : dict json) (w : world) :
  get_language None w = Ok dl ->
  self_data w self = Ok (JObj o) ->
  unusable o key = true ->
  self_data w dl = Ok (JObj od) ->
  unusable od key = true ->
  forall n, get_fuel (S (S n)) self key None r w = Some (Ok None, w).
Proof.
  intros Hdl Hd Hu Hdd Hdu n.
  assert (Hinner : forall m, get_fuel (S m) dl key None r w
                             = Some (Ok None, w)).
  { intros m. rewrite get_fuel_S. unfold get_body. rewrite Hdd.
    cbn [py_get py_optional]. fold (unusable od key). rewrite Hdu, Hdl.
    now rewrite Nat.eqb_refl. }
  rewrite get_fuel_S. unfold get_body. rewrite Hd.
  cbn [py_get py_optional]. fold (unusable o key). rewrite Hu, Hdl.
  destruct (Nat.eqb dl self); [reflexivity|]. now rewrite Hinner.
Qed.

Lemma get_miss_everywhere_witness :
  get_fuel 2 1 "no.such.key" None None loaded_world
  = Some (Ok None, loaded_world).
Proof.
  apply (get_miss_everywhere 1 0 "no.such.key" None fr_data en_data
           loaded_world); reflexivity.
Defined.

(** X3: when the default language answers with a template that the
    replacements turn into the empty string, the caller gets [None] and
    nothing is stored. *)
Theorem get_fallback_emptied_by_replacements (self dl : ref) (key t : string)
    (r : option (dict pyval)) (o od : dict json) (w : world) :
  get_language None w = Ok dl ->
  dl <> self ->
  self_data w self = Ok (JObj o) ->
  unusable o key = true ->
  self_data w dl = Ok (JObj od) ->
  dict_get od key = Some (JStr t) ->
  t <> EmptyString ->
  apply_replacements r t = EmptyString ->
  forall n, get_fuel (S (S n)) self key None r w = Some (Ok None, w).
Proof.
  intros Hdl Hne Hd Hu Hdd Hdk Ht Hrt n.
  rewrite get_fuel_S. unfold get_body at 1. rewrite Hd.
  cbn [py_get py_optional]. fold (unusable o key). rewrite Hu, Hdl.
  destruct (Nat.eqb dl self) eqn:E.
  { apply Nat.eqb_eq in E. contradiction. }
  rewrite get_fuel_S, (get_body_hit _ dl key None r w od t Hdd Hdk Ht).
  now rewrite Hrt.
Qed.

Lemma get_fallback_emptied_by_replacements_witness :
  get_fuel 2 1 "greet" None (Some [("name", PStr EmptyString)]) demo_world
  = Some (Ok None, demo_world).
Proof.
  apply (get_fallback_emptied_by_replacements 1 0 "greet" "{name}"
           (Some [("name", PStr EmptyString)])
           [("n", JStr EmptyString)]
           [("greet", JStr "{name}"); ("n", JInt 3)] demo_world);
    try reflexivity; discriminate.
Defined.

(** X4: on an empty registry a lookup that needs the fallback raises the
    [StopIteration] of [get_language]; a lookup that the instance can
    answer itself is not affected. *)
Theorem get_on_empty_registry (self : ref) (key : string)
    (r : option (dict pyval)) (o : dict json) (w : world) :
  languages w = [] ->
  self_data w self = Ok (JObj o) ->
  unusable o key = true ->
  forall n, get_fuel (S n) self key None r w = Some (Raise StopIteration, w).
Proof.
  intros Hl Hd Hu n. rewrite get_fuel_S. unfold get_body. rewrite Hd.
  cbn [py_get py_optional]. fold (unusable o key). rewrite Hu.
  now rewrite (get_language_empty None w Hl).
Qed.

Lemma get_on_empty_registry_witness :
  get_fuel 2 0 "y" None None orphan_world
  = Some (Raise StopIteration, orphan_world).
Proof.
  apply (get_on_empty_registry 0 "y" None [("x", JStr "un")] orphan_world);
    reflexivity.
Defined.

Lemma py_get_dict d key dflt got :
  py_get d key dflt = Ok got ->
  exists o, d = JObj o /\ got = dict_get_default o key dflt.
Proof.
  destruct d; simpl; try discriminate.
  intros H. injection H as <-. eauto.
Qed.

(** The two ways a call ends: the world is as before, or the nested call
    has answered [t] and [t] has been stored under [key]. *)
Lemma get_cases self key default r w out w1 :
  get self key default r w = Some (out, w1) ->
  w1 = w \/
  exists l o t,
    nth_error (heap w) self = Some l /\
    data l = Some (JObj o) /\
    t <> EmptyString /\
    out = Ok (Some (apply_replacements r t)) /\
    w1 = set_heap w
           (list_set (heap w) self
              (set_data l (Some (JObj (dict_set o key (JStr t)))))).
Proof.
  unfold get. rewrite get_fuel_S. unfold get_body.
  destruct (self_data w self) as [d|e] eqn:Hd.
  2:{ intros H. injection H as _ <-. now left. }
  destruct (py_get d key (py_optional default)) as [got|e] eqn:Hg.
  2:{ intros H. injection H as _ <-. now left. }
  destruct (py_get_dict d key _ got Hg) as [o [-> _]].
  destruct (self_data_inv w self _ Hd) as [l [Hl Ho]].
  destruct (needs_fallback got).
  2:{ intros H. injection H as _ <-. now left. }
  destruct default.
  { intros H. injection H as _ <-. now left. }
  destruct (get_language None w) as [dl|e] eqn:Hdl.
  2:{ intros H. injection H as _ <-. now left. }
  destruct (Nat.eqb dl self).
  { intros H. injection H as _ <-. now left. }
  rewrite get_fuel_S.
  destruct (get_body_on_default (get_fuel 0) dl key r w Hdl) as [inner [-> _]].
  destruct inner as [[t|]|e].
  - destruct (String.eqb t EmptyString) eqn:Et.
    { intros H. injection H as _ <-. now left. }
    unfold set_item. rewrite Hl, Ho.
    intros H. injection H as <- <-. right. exists l, o, t.
    apply String.eqb_neq in Et. auto.
  - intros H. injection H as _ <-. now left.
  - intros H. injection H as _ <-. now left.
Qed.

Lemma length_list_set {A} (l : list A) i x :
  length (list_set l i x) = length l.
Proof.
  revert i. induction l as [|a l IH]; intros [|i]; simpl; auto.
Qed.

(** X5: whatever it returns or raises, [get] leaves the registry, the
    default code, the output and every other instance alone; the
    instance it is called on keeps its name, author, enabled flag, notes,
    location and locale code, and of its data at most the value stored
    under [key] changes, and only to a non-empty str. *)
Theorem get_frame (self : ref) (key : string) (default : option string)
    (r : option (dict pyval)) (w w1 : world) (out : res (option string)) :
  get self key default r w = Some (out, w1) ->
  languages w1 = languages w /\
  default_code w1 = default_code w /\
  stdout w1 = stdout w /\
  length (heap w1) = length (heap w) /\
  (forall i, i <> self -> nth_error (heap w1) i = nth_error (heap w) i) /\
  (forall l, nth_error (heap w) self = Some l ->
     exists l1, nth_error (heap w1) self = Some l1 /\
       name l1 = name l /\ author l1 = author l /\
       enabled l1 = enabled l /\ notes l1 = notes l /\
       location l1 = location l /\ locale_code l1 = locale_code l /\
       (data l1 = data l \/
        exists o o1 t,
          data l = Some (JObj o) /\ data l1 = Some (JObj o1) /\
          t <> EmptyString /\ dict_get o1 key = Some (JStr t) /\
          forall k, k <> key -> dict_get o1 k = dict_get o k)) /\
  (forall o, self_data w self = Ok (JObj o) ->
     exists o1, self_data w1 self = Ok (JObj o1) /\
       (forall k, k <> key -> dict_get o1 k = dict_get o k) /\
       (dict_get o1 key = dict_get o key \/
        exists t, t <> EmptyString /\ dict_get o1 key = Some (JStr t))).
Proof.
  intros Hget.
  destruct (get_cases self key default r w out w1 Hget)
    as [->|[l [o0 [t [Hl [Ho [Ht [_ ->]]]]]]]].
  - repeat split; auto.
    + intros l Hl. exists l. repeat split; auto.
    + intros o Ho. exists o. auto.
  - cbn [set_heap languages default_code stdout heap].
    split; [reflexivity|]. split; [reflexivity|]. split; [reflexivity|].
    split; [apply length_list_set|].
    split; [intros i Hi; apply nth_error_list_set_other; congruence|].
    split.
    + intros l' Hl'. rewrite Hl in Hl'. injection Hl' as <-.
      exists (set_data l (Some (JObj (dict_set o0 key (JStr t))))).
      split; [apply (nth_error_list_set_same _ _ _ _ Hl)|].
      repeat (split; [reflexivity|]).
      right. exists o0, (dict_set o0 key (JStr t)), t.
      split; [exact Ho|]. split; [reflexivity|]. split; [exact Ht|].
      split; [apply dict_get_set_same|].
      intros k Hk. apply dict_get_set_other. congruence.
    + intros o Hd. unfold self_data in Hd. rewrite Hl, Ho in Hd.
      injection Hd as <-.
      exists (dict_set o0 key (JStr t)). split; [|split].
      * apply self_data_list_set. exact Hl.
      * intros k Hk. apply dict_get_set_other. congruence.
      * right. exists t. split; [exact Ht|apply dict_get_set_same].
Qed.

Lemma get_frame_witness :
  languages after_bye = languages loaded_world /\
  default_code after_bye = default_code loaded_world /\
  stdout after_bye = stdout loaded_world /\
  length (heap after_bye) = length (heap loaded_world) /\
  (forall i, i <> 1 ->
     nth_error (heap after_bye) i = nth_error (heap loaded_world) i) /\
  (forall l, nth_error (heap loaded_world) 1 = Some l ->
     exists l1, nth_error (heap after_bye) 1 = Some l1 /\
       name l1 = name l /\ author l1 = author l /\
       enabled l1 = enabled l /\ notes l1 = notes l /\
       location l1 = location l /\ locale_code l1 = locale_code l /\
       (data l1 = data l \/
        exists o o1 t,
          data l = Some (JObj o) /\ data l1 = Some (JObj o1) /\
          t <> EmptyString /\ dict_get o1 "bye" = Some (JStr t) /\
          forall k, k <> "bye" -> dict_get o1 k = dict_get o k)) /\
  (forall o, self_data loaded_world 1 = Ok (JObj o) ->
     exists o1, self_data after_bye 1 = Ok (JObj o1) /\
       (forall k, k <> "bye" -> dict_get o1 k = dict_get o k) /\
       (dict_get o1 "bye" = dict_get o "bye" \/
        exists t, t <> EmptyString /\ dict_get o1 "bye" = Some (JStr t))).
Proof.
  apply (get_frame 1 "bye" None alice loaded_world after_bye
           (Ok (Some "Goodbye Alice"))).
  reflexivity.
Defined.

(** The instance of the sample after the call, field by field. *)
Example instance_after_get :
  nth_error (heap loaded_world) 1
  = Some (mkLanguage (JStr "Francais") (JStr "Unknown") (JBool false)
            (JStr EmptyString) (JStr "lang/fr.json") "fr_fr"
            (Some (JObj fr_data))) /\
  nth_error (heap after_bye) 1
  = Some (mkLanguage (JStr "Francais") (JStr "Unknown") (JBool false)
            (JStr EmptyString) (JStr "lang/fr.json") "fr_fr"
            (Some (JObj (fr_data ++ [("bye", JStr "Goodbye Alice")])%list))).
Proof. split; reflexivity. Qed.

(** X6: [get] is idempotent: the same call made again in the world the
    first one left returns the same result and changes nothing more. *)
Theorem get_idempotent (self : ref) (key : string) (default : option string)
    (r : option (dict pyval)) (w w1 : world) (out : res (option string)) :
  get self key default r w = Some (out, w1) ->
  get self key default r w1 = Some (out, w1).
Proof.
  intros Hget.
  destruct (get_cases self key default r w out w1 Hget)
    as [->|[l [o [t [Hl [Ho [Ht [-> ->]]]]]]]].
  - exact Hget.
  - unfold get. rewrite get_fuel_S.
    apply (get_body_hit _ self key default r _ (dict_set o key (JStr t)) t).
    + apply self_data_list_set. exact Hl.
    + apply dict_get_set_same.
    + exact Ht.
Qed.

Lemma get_idempotent_witness :
  get 1 "bye" None alice after_bye
  = Some (Ok (Some "Goodbye Alice"), after_bye).
Proof.
  apply (get_idempotent 1 "bye" None alice loaded_world after_bye
           (Ok (Some "Goodbye Alice"))).
  reflexivity.
Defined.

(** ** Placeholders *)

Lemma prefix_app p s :
  String.prefix p s = true -> exists b, s = p ++ b.
Proof.
  revert s. induction p as [|a p IH]; intros s H.
  - exists s. reflexivity.
  - destruct s as [|c s]; simpl in H; [discriminate|].
    destruct (ascii_dec a c) as [->|]; [|discriminate].
    destruct (IH s H) as [b ->]. exists b. reflexivity.
Qed.

Lemma prefix_app_self p b : String.prefix p (p ++ b) = true.
Proof.
  induction p as [|a p IH]; simpl.
  - now destruct b.
  - destruct (ascii_dec a a); [exact IH|contradiction].
Qed.

Lemma occursb_spec old s : occursb old s = true <-> occurs old s.
Proof.
  split.
  - induction s as [|c s IH]; simpl; intros H.
    + destruct (prefix_app old EmptyString H) as [b Hb].
      exists EmptyString, b. exact Hb.
    + apply orb_true_iff in H. destruct H as [H|H].
      * destruct (prefix_app old (String c s) H) as [b Hb].
        exists EmptyString, b. exact Hb.
      * destruct (IH H) as [a [b ->]]. exists (String c a), b. reflexivity.
  - intros [a [b ->]]. induction a as [|c a IH].
    + cbn [append]. destruct (old ++ b) as [|c s] eqn:E.
      * destruct old; [reflexivity|discriminate].
      * cbn [occursb]. rewrite <- E, prefix_app_self. reflexivity.
    + cbn [append occursb]. rewrite IH. apply orb_true_r.
Qed.

Lemma replace_from_0 old new c s :
  replace_from old new (String c s) 0
  = if String.prefix old (String c s)
    then new ++ replace_from old new s (String.length old - 1)
    else String c (replace_from old new s 0).
Proof. reflexivity. Qed.

Lemma occursb_cons old c s :
  occursb old (String c s) = String.prefix old (String c s) || occursb old s.
Proof. reflexivity. Qed.

Lemma replace_from_absent old new s :
  old <> EmptyString -> occursb old s = false ->
  replace_from old new s 0 = s.
Proof.
  intros Hold. induction s as [|c s IH]; intros H; [reflexivity|].
  rewrite occursb_cons in H.
  apply orb_false_iff in H. destruct H as [Hp Hs].
  rewrite replace_from_0, Hp. now rewrite (IH Hs).
Qed.

Lemma replace_placeholder_absent s kv :
  occursb ("{" ++ fst kv ++ "}") s = false -> replace_placeholder s kv = s.
Proof.
  intros H. unfold replace_placeholder, str_replace.
  change ("{" ++ fst kv ++ "}") with (String "{" (fst kv ++ "}")) in *.
  cbv iota. apply replace_from_absent; [discriminate|exact H].
Qed.

(** X7: a string in which none of the placeholders occurs comes out of
    the placeholder loop as it went in. *)
Theorem apply_replacements_absent (r : option (dict pyval)) (s : string) :
  placeholders_absent r s = true -> apply_replacements r s = s.
Proof.
  destruct r as [items|]; [|reflexivity].
  destruct items as [|kv0 rest]; [reflexivity|].
  unfold placeholders_absent, apply_replacements.
  generalize (kv0 :: rest). clear kv0 rest. intros items.
  induction items as [|kv items IH]; simpl; intros H; [reflexivity|].
  apply andb_true_iff in H. destruct H as [Hkv Hitems].
  apply negb_true_iff in Hkv.
  rewrite (replace_placeholder_absent s kv Hkv). now apply IH.
Qed.

Lemma apply_replacements_absent_witness :
  apply_replacements (Some [("name", PStr "Alice"); ("count", PInt 5)])
    "Hello {user}, {} and {name }" = "Hello {user}, {} and {name }".
Proof.
  apply (apply_replacements_absent
           (Some [("name", PStr "Alice"); ("count", PInt 5)])
           "Hello {user}, {} and {name }").
  reflexivity.
Defined.

Lemma replace_from_skip old new x rest :
  replace_from old new (x ++ rest) (String.length x)
  = replace_from old new rest 0.
Proof.
  induction x as [|c x IH]; simpl; [|exact IH].
  destruct rest; reflexivity.
Qed.

Lemma replace_from_head old new rest :
  old <> EmptyString ->
  replace_from old new (old ++ rest) 0 = new ++ replace_from old new rest 0.
Proof.
  destruct old as [|c old]; [contradiction|]. intros _.
  change (String c old ++ rest) with (String c (old ++ rest)).
  rewrite replace_from_0.
  change (String c (old ++ rest)) with (String c old ++ rest).
  rewrite prefix_app_self.
  replace (String.length (String c old) - 1) with (String.length old)
    by (cbn [String.length]; lia).
  now rewrite replace_from_skip.
Qed.

(** X8: in a template, text without an opening brace is kept, the
    placeholder that follows it is replaced by [str(v)], and the scan goes
    on behind the placeholder. *)
Theorem replace_placeholder_template (a k rest : string) (v : pyval) :
  no_open_brace a = true ->
  replace_placeholder (a ++ ("{" ++ k ++ "}") ++ rest) (k, v)
  = a ++ py_str v ++ replace_placeholder rest (k, v).
Proof.
  unfold replace_placeholder, str_replace. cbn [fst snd].
  change ("{" ++ k ++ "}") with (String "{" (k ++ "}")). cbv iota.
  induction a as [|c a IH]; intros Ha.
  - change (EmptyString ++ String "{" (k ++ "}") ++ rest)
      with (String "{" (k ++ "}") ++ rest).
    rewrite replace_from_head by discriminate. reflexivity.
  - simpl in Ha. apply andb_true_iff in Ha. destruct Ha as [Hc Ha].
    apply negb_true_iff, Ascii.eqb_neq in Hc.
    change (String c a ++ String "{" (k ++ "}") ++ rest)
      with (String c (a ++ String "{" (k ++ "}") ++ rest)).
    rewrite replace_from_0. cbn [String.prefix].
    destruct (ascii_dec "{" c) as [E|_]; [congruence|].
    rewrite (IH Ha). reflexivity.
Qed.

Lemma replace_placeholder_template_witness :
  replace_placeholder ("Hello " ++ ("{" ++ "name" ++ "}") ++ ", {name}!")
    ("name", PInt 7)
  = "Hello " ++ py_str (PInt 7)
    ++ replace_placeholder ", {name}!" ("name", PInt 7).
Proof.
  apply (replace_placeholder_template "Hello " "name" ", {name}!" (PInt 7)).
  reflexivity.
Defined.

(** ** Resolving a code *)



(** ** Reloading *)

(** One turn of the loop of [load_languages], with the heap. *)
Lemma load_entry_heap fs code entry w :
  match load_entry fs code entry w with
  | (Ok _, w') =>
      if startswith code "notes" then w' = w
      else exists lang,
          heap w' = (heap w ++ [lang])%list /\ locale_code lang = code /\
          languages w' = dict_set (languages w) code (length (heap w))
  | (Raise _, w') => heap w' = heap w /\ languages w' = languages w
  end.
Proof.
  unfold load_entry. destruct (startswith code "notes"); [reflexivity|].
  destruct entry as [| | | | | |o]; try (simpl; auto; fail).
  destruct (dict_mem o "location"); cbn [negb]; [|simpl; auto].
  destruct (dict_mem o "name"); cbn [negb]; [|simpl; auto].
  destruct (truthy (dict_get_default o "is_default" (JBool false))).
  - unfold bind at 1. unfold bind at 1. unfold print at 1.
    unfold assign_default_code at 1. unfold bind.
    match goal with
    | |- context [Language_init fs o code ?w1] =>
        pose proof (Language_init_effect fs o code w1) as H;
        destruct (Language_init fs o code w1) as [[l|e] w2]
    end; simpl in *.
    + destruct H as [-> [[lang [Hh Hc]] [Hl _]]]. exists lang.
      rewrite Hh, Hl. auto.
    + destruct H as [[Hh [Hl _]] _]. auto.
  - unfold bind at 1. unfold ret at 1. unfold bind.
    pose proof (Language_init_effect fs o code w) as H.
    destruct (Language_init fs o code w) as [[l|e] w2]; simpl in *.
    + destruct H as [-> [[lang [Hh Hc]] [Hl _]]]. exists lang.
      rewrite Hh, Hl. auto.
    + destruct H as [[Hh [Hl _]] _]. auto.
Qed.

Lemma registry_wf_grow w w' code lang :
  registry_wf w ->
  heap w' = (heap w ++ [lang])%list ->
  locale_code lang = code ->
  languages w' = dict_set (languages w) code (length (heap w)) ->
  registry_wf w'.
Proof.
  intros Hwf Hh Hc Hl c l. rewrite Hl, Hh, dict_get_set.
  destruct (String.eqb code c) eqn:E.
  - apply String.eqb_eq in E. subst c. intros H. injection H as <-.
    exists lang. split; [apply nth_error_snoc|exact Hc].
  - intros H. destruct (Hwf c l H) as [x [Hx Hcx]]. exists x.
    split; [|exact Hcx].
    rewrite nth_error_app1; [exact Hx|].
    apply nth_error_Some. congruence.
Qed.

(** The loop keeps the registry sound and only adds to the heap, also
    when it stops on an exception. *)
Lemma load_entries_wf fs items w :
  registry_wf w ->
  registry_wf (snd (load_entries fs items w)) /\
  exists added, heap (snd (load_entries fs items w)) = (heap w ++ added)%list.
Proof.
  revert w. induction items as [|[code entry] rest IH]; intros w Hwf.
  - split; [exact Hwf|]. exists []. simpl. now rewrite app_nil_r.
  - simpl load_entries. unfold bind.
    pose proof (load_entry_heap fs code entry w) as He.
    destruct (load_entry fs code entry w) as [[[]|e] w1].
    + destruct (startswith code "notes").
      * subst w1. apply IH. exact Hwf.
      * destruct He as [lang [Hh [Hc Hl]]].
        destruct (IH w1 (registry_wf_grow w w1 code lang Hwf Hh Hc Hl))
          as [Hwf1 [added Ha]].
        split; [exact Hwf1|]. exists (lang :: added).
        rewrite Ha, Hh, <- app_assoc. reflexivity.
    + destruct He as [Hh Hl]. simpl. split.
      * intros c l. rewrite Hl, Hh. apply Hwf.
      * exists []. now rewrite app_nil_r.
Qed.

Lemma load_languages_ok_manifest fs json_path w w' :
  load_languages fs json_path w = (Ok tt, w') ->
  exists items w1,
    fs (Path json_path) = Some (File (Some (JObj items))) /\
    load_entries fs items
      (snd (print (Loading_languages_from json_path) (set_languages w [])))
    = (Ok tt, w1) /\
    same_state w1 w'.
Proof.
  intros Hload.
  destruct (fs (Path json_path)) as [[[j|]|names]|] eqn:Hm;
    try (unfold load_languages, os_path_exists, json_load in Hload;
         rewrite Hm in Hload; discriminate).
  destruct j as [| | | | | |items];
    try (unfold load_languages, os_path_exists, json_load in Hload;
         rewrite Hm in Hload; discriminate).
  rewrite (load_languages_manifest fs json_path items w Hm) in Hload.
  unfold bind in Hload.
  destruct (load_entries fs items
              (snd (print (Loading_languages_from json_path)
                          (set_languages w [])))) as [[[]|e] w1] eqn:E;
    [|discriminate].
  exists items, w1. split; [reflexivity|]. split; [exact E|].
  unfold print in Hload. injection Hload as <-. repeat split.
Qed.

(** X10: a reload that succeeds replaces the registry: afterwards it
    holds the codes of the manifest ([notes] keys aside) and no other,
    whatever it held before.  [default_code] is the last entry flagged
    [is_default]; with no flagged entry it stays what it was before the
    reload. *)
Theorem load_languages_replaces_registry (fs : filesystem)
    (json_path : string) (w w' : world) :
  load_languages fs json_path w = (Ok tt, w') ->
  exists items,
    fs (Path json_path) = Some (File (Some (JObj items))) /\
    (forall c, dict_mem (languages w') c = true
               <-> In c (stored_codes items)) /\
    default_code w' = last_default (default_code w) items.
Proof.
  intros Hload.
  destruct (load_languages_ok_manifest fs json_path w w' Hload)
    as [items [w1 [Hm [Hent [_ [Hl Hd]]]]]].
  destruct (load_entries_ok fs items _ _ Hent) as [Hmem Hdef].
  exists items. split; [exact Hm|]. rewrite Hl, Hd. split; [|exact Hdef].
  intros c. rewrite Hmem. cbn.
  split; [intros [H|H]; [discriminate|exact H]|auto].
Qed.

Lemma load_languages_replaces_registry_witness :
  exists items,
    sample_fs (Path "language.json") = Some (File (Some (JObj items))) /\
    (forall c, dict_mem (languages reloaded_world) c = true
               <-> In c (stored_codes items)) /\
    default_code reloaded_world = last_default (default_code after_bye) items.
Proof.
  apply (load_languages_replaces_registry sample_fs "language.json"
           after_bye reloaded_world).
  vm_compute. reflexivity.
Defined.

Lemma registry_wf_same_state w w' :
  same_state w w' -> registry_wf w -> registry_wf w'.
Proof.
  intros [Hh [Hl _]] Hwf c l. rewrite Hl, Hh. apply Hwf.
Qed.

Lemma registry_wf_cleared w : registry_wf (set_languages w []).
Proof. intros c l H. discriminate H. Qed.

Lemma load_languages_not_a_manifest fs json_path nd w :
  fs (Path json_path) = Some nd ->
  is_manifest nd = false ->
  load_languages fs json_path w
  = (Raise (manifest_error nd),
     snd (print (Loading_languages_from json_path) (set_languages w []))).
Proof.
  intros Hm Hnd.
  unfold load_languages, os_path_exists, json_load. rewrite Hm.
  destruct nd as [[j|]|names]; try reflexivity.
  destruct j; try reflexivity. discriminate Hnd.
Qed.

(** X13: a manifest that exists but is a directory, does not parse, or
    holds something other than a JSON object makes the reload raise (in
    that order: [IsADirectoryError], the parser's error,
    [AttributeError]); the registry has been emptied by then, while
    [default_code] and the instances are as before. *)
Theorem load_languages_bad_manifest (fs : filesystem) (json_path : string)
    (nd : node) (w : world) :
  fs (Path json_path) = Some nd ->
  is_manifest nd = false ->
  exists w',
    load_languages fs json_path w = (Raise (manifest_error nd), w') /\
    languages w' = [] /\
    default_code w' = default_code w /\
    heap w' = heap w /\
    stdout w' = (stdout w ++ [Loading_languages_from json_path])%list.
Proof.
  intros Hm Hnd. eexists. split.
  - apply (load_languages_not_a_manifest fs json_path nd w Hm Hnd).
  - repeat split.
Qed.

Lemma load_languages_bad_manifest_witness :
  exists w',
    load_languages sample_fs "lang/mixed/list.json" loaded_world
    = (Raise (manifest_error (File (Some (JArr [JStr "x"])))), w') /\
    languages w' = [] /\
    default_code w' = default_code loaded_world /\
    heap w' = heap loaded_world /\
    stdout w' = (stdout loaded_world
                 ++ [Loading_languages_from "lang/mixed/list.json"])%list.
Proof.
  apply (load_languages_bad_manifest sample_fs "lang/mixed/list.json"
           (File (Some (JArr [JStr "x"]))) loaded_world); reflexivity.
Defined.

Lemma load_languages_wf_heap fs json_path w :
  registry_wf (snd (load_languages fs json_path w)) /\
  exists added,
    heap (snd (load_languages fs json_path w)) = (heap w ++ added)%list.
Proof.
  destruct (fs (Path json_path)) as [nd|] eqn:Hm.
  - destruct (is_manifest nd) eqn:Hnd.
    + destruct nd as [[[| | | | | |items]|]|names]; try discriminate Hnd.
      rewrite (load_languages_manifest fs json_path items w Hm).
      set (w0 := snd (print (Loading_languages_from json_path)
                            (set_languages w []))).
      assert (Hwf0 : registry_wf w0).
      { apply (registry_wf_same_state (set_languages w [])).
        - apply same_state_print.
        - apply registry_wf_cleared. }
      destruct (load_entries_wf fs items w0 Hwf0) as [Hwf [added Ha]].
      unfold bind.
      destruct (load_entries fs items w0) as [[[]|e] w1]; simpl in *.
      * split; [|exists added; exact Ha].
        intros c l. apply Hwf.
      * split; [exact Hwf|exists added; exact Ha].
    + rewrite (load_languages_not_a_manifest fs json_path nd w Hm Hnd).
      simpl. split.
      * intros c l. discriminate.
      * exists []. now rewrite app_nil_r.
  - rewrite (load_languages_missing fs json_path w Hm). simpl. split.
    + apply registry_wf_cleared.
    + exists []. now rewrite app_nil_r.
Qed.

(** X11: however a reload ends, every entry of the registry it leaves
    names an instance that exists and carries the entry's code as its
    [locale_code], and the instances that existed before are still
    there, unchanged, at their addresses. *)
Theorem load_languages_keeps_registry_sound (fs : filesystem)
    (json_path : string) (w : world) :
  registry_wf (snd (load_languages fs json_path w)) /\
  exists added,
    heap (snd (load_languages fs json_path w)) = (heap w ++ added)%list.
Proof. apply load_languages_wf_heap. Qed.

(** X12: the loop of the reload does not look at the value of a key that
    starts with [notes]: dropping those entries from the manifest, what
    ever they hold, changes neither the result nor the world. *)
Theorem load_entries_ignores_notes (fs : filesystem)
    (items : list (string * json)) (w : world) :
  load_entries fs items w
  = load_entries fs
      (filter (fun ce => negb (startswith (fst ce) "notes")) items) w.
Proof.
  revert w. induction items as [|[code entry] rest IH]; intros w.
  - reflexivity.
  - cbn [filter fst]. destruct (startswith code "notes") eqn:Hn; cbn [negb].
    + cbn [load_entries]. unfold bind, load_entry. rewrite Hn.
      unfold ret. apply IH.
    + cbn [load_entries]. unfold bind.
      destruct (load_entry fs code entry w) as [[[]|e] w1]; [apply IH|].
      reflexivity.
Qed.

(** X16: building a [Language] registers nothing: the registry and
    [default_code] are as before; when the constructor returns, the new
    instance is the only addition to the heap, and when it raises the
    heap is as before. *)
Theorem Language_init_registers_nothing (fs : filesystem) (o : dict json)
    (code : string) (w : world) :
  languages (snd (Language_init fs o code w)) = languages w /\
  default_code (snd (Language_init fs o code w)) = default_code w /\
  match fst (Language_init fs o code w) with
  | Ok l =>
      l = length (heap w) /\
      exists lang,
        heap (snd (Language_init fs o code w)) = (heap w ++ [lang])%list /\
        locale_code lang = code /\
        location lang = dict_get_default o "location" (JStr EmptyString)
  | Raise _ => heap (snd (Language_init fs o code w)) = heap w
  end.
Proof.
  unfold Language_init, bind.
  destruct (read_data_effect fs
              (dict_get_default o "location" (JStr EmptyString)) code w)
    as [[Hh [Hl Hd]] _].
  destruct (read_data fs
              (dict_get_default o "location" (JStr EmptyString)) code w)
    as [[d|e] w1]; simpl in *.
  - rewrite Hh. repeat split; auto. eexists. repeat split.
  - auto.
Qed.

Lemma dict_mem_nonempty {V} (d : dict V) c :
  dict_mem d c = true -> d <> [].
Proof. intros H ->. discriminate H. Qed.

(** What [get_language] returns is an entry of the registry. *)
Lemma get_language_in_registry code w l :
  get_language code w = Ok l -> exists c, dict_get (languages w) c = Some l.
Proof.
  unfold get_language.
  destruct (dict_get (languages w) (effective_code code w)) as [x|] eqn:Hc.
  - intros H. injection H as <-. eauto.
  - destruct (languages w) as [|[c0 first] rest] eqn:Hl; [discriminate|].
    cbn [dict_values map snd]. unfold dict_get_default.
    destruct (dict_get ((c0, first) :: rest) (default_code w)) as [x|] eqn:Hd.
    + intros H. injection H as <-. eauto.
    + intros H. injection H as <-. exists c0. simpl.
      now rewrite String.eqb_refl.
Qed.

Lemma get_language_entry code w l lang :
  registry_wf w ->
  get_language code w = Ok l ->
  nth_error (heap w) l = Some lang ->
  dict_get (languages w) (locale_code lang) = Some l.
Proof.
  intros Hwf Hget Hnth.
  destruct (get_language_in_registry code w l Hget) as [c Hc].
  destruct (Hwf c l Hc) as [lang' [Hnth' Hcode]].
  rewrite Hnth in Hnth'. injection Hnth' as <-. now rewrite Hcode.
Qed.

(** Resolving a code on a sound, non-empty registry gives an instance. *)
Lemma get_language_sound code w :
  registry_wf w -> languages w <> [] ->
  exists l lang,
    get_language code w = Ok l /\ nth_error (heap w) l = Some lang /\
    (locale_code lang = effective_code code w \/
     dict_get (languages w) (effective_code code w) = None).
Proof.
  intros Hwf Hne. unfold get_language.
  destruct (dict_get (languages w) (effective_code code w)) as [l|] eqn:Hc.
  - destruct (Hwf _ _ Hc) as [lang [Hl Hcode]]. exists l, lang. auto.
  - destruct (languages w) as [|[c0 first] rest] eqn:Hlangs; [contradiction|].
    cbn [dict_values map snd]. unfold dict_get_default.
    destruct (dict_get ((c0, first) :: rest) (default_code w)) as [l|] eqn:Hd.
    + rewrite <- Hlangs in Hd. destruct (Hwf _ _ Hd) as [lang [Hl _]].
      exists l, lang. auto.
    + assert (H0 : dict_get (languages w) c0 = Some first).
      { rewrite Hlangs. simpl. now rewrite String.eqb_refl. }
      destruct (Hwf _ _ H0) as [lang [Hl _]]. exists first, lang. auto.
Qed.

(** X17: after a reload that succeeds on a manifest with at least one
    entry that is not a [notes] key, [get_language] returns an existing
    instance for every code: for a non-empty code of the manifest the
    instance built for that code, and for no code or the empty code the
    instance built for [default_code] when the manifest has it. *)
Theorem get_language_after_reload (fs : filesystem) (json_path : string)
    (items : list (string * json)) (w w' : world) :
  load_languages fs json_path w = (Ok tt, w') ->
  fs (Path json_path) = Some (File (Some (JObj items))) ->
  stored_codes items <> [] ->
  forall code,
    exists l lang,
      get_language code w' = Ok l /\
      nth_error (heap w') l = Some lang /\
      dict_get (languages w') (locale_code lang) = Some l /\
      (forall c, code = Some c -> c <> EmptyString ->
         In c (stored_codes items) -> locale_code lang = c) /\
      (code = None \/ code = Some EmptyString ->
       In (default_code w') (stored_codes items) ->
       locale_code lang = default_code w').
Proof.
  intros Hload Hm Hne code.
  destruct (load_languages_ok_manifest fs json_path w w' Hload)
    as [items' [w1 [Hm' [Hent [_ [Hl _]]]]]].
  rewrite Hm in Hm'. injection Hm' as <-.
  destruct (load_entries_ok fs items _ _ Hent) as [Hmem _].
  assert (Hin : forall c, In c (stored_codes items) ->
                          dict_mem (languages w') c = true).
  { intros c Hc. rewrite Hl. apply Hmem. now right. }
  assert (Hwf : registry_wf w').
  { pose proof (proj1 (load_languages_wf_heap fs json_path w)) as H.
    now rewrite Hload in H. }
  assert (Hlangs : languages w' <> []).
  { destruct (stored_codes items) as [|c0 rest] eqn:E; [contradiction|].
    apply (dict_mem_nonempty _ c0). apply Hin. now left. }
  destruct (get_language_sound code w' Hwf Hlangs)
    as [l [lang [Hget [Hnth Hcode]]]].
  assert (Hresolved : In (effective_code code w') (stored_codes items) ->
                      locale_code lang = effective_code code w').
  { intros Hc. destruct Hcode as [Hcode|Hnone]; [exact Hcode|].
    specialize (Hin _ Hc). unfold dict_mem in Hin.
    now rewrite Hnone in Hin. }
  exists l, lang. split; [exact Hget|]. split; [exact Hnth|]. split; [|split].
  - apply (get_language_entry code w' l lang Hwf Hget Hnth).
  - intros c -> Hc Hinc.
    assert (He : effective_code (Some c) w' = c).
    { unfold effective_code, code_falsy.
      destruct (String.eqb c EmptyString) eqn:E; [|reflexivity].
      apply String.eqb_eq in E. contradiction. }
    rewrite He in Hresolved. now apply Hresolved.
  - intros [->| ->] Hinc; now apply Hresolved.
Qed.

Lemma get_language_after_reload_witness :
  exists l lang,
    get_language (Some "fr_fr") reloaded_world = Ok l /\
    nth_error (heap reloaded_world) l = Some lang /\
    dict_get (languages reloaded_world) (locale_code lang) = Some l /\
    (forall c, Some "fr_fr" = Some c -> c <> EmptyString ->
       In c (stored_codes sample_manifest) -> locale_code lang = c) /\
    (Some "fr_fr" = None \/ Some "fr_fr" = Some EmptyString ->
     In (default_code reloaded_world) (stored_codes sample_manifest) ->
     locale_code lang = default_code reloaded_world).
Proof.
  apply (get_language_after_reload sample_fs "language.json" sample_manifest
           after_bye reloaded_world).
  - vm_compute. reflexivity.
  - reflexivity.
  - discriminate.
Defined.

(** The reloaded sample: each code gets the instance built for it by the
    second load, at a new address. *)
Example get_language_on_the_reloaded_sample :
  languages reloaded_world = [("en_us", 3); ("fr_fr", 4); ("de_de", 5)] /\
  get_language (Some "fr_fr") reloaded_world = Ok 4 /\
  option_map locale_code (nth_error (heap reloaded_world) 4) = Some "fr_fr" /\
  get_language None reloaded_world = Ok 3 /\
  option_map locale_code (nth_error (heap reloaded_world) 3) = Some "en_us".
Proof. vm_compute. repeat split. Qed.

(** ** Sources that load, and sources that do not *)

Lemma self_data_alloc l w :
  self_data (snd (alloc l w)) (length (heap w))
  = match data l with Some d => Ok d | None => Raise AttributeError end.
Proof.
  unfold self_data, alloc. cbn [snd heap]. now rewrite nth_error_snoc.
Qed.

(** X14: the single-file branch stores whatever the document holds under
    ["data"], without the type test of the directory branch: when that
    value is not an object the [Language] is built, and every [get] on
    it raises [AttributeError], with or without a [default]. *)
Theorem single_file_data_not_an_object (fs : filesystem) (o doc : dict json)
    (v : json) (code loc : string) (w : world) :
  dict_get o "location" = Some (JStr loc) ->
  fs (Path loc) = Some (File (Some (JObj doc))) ->
  dict_get doc "data" = Some v ->
  is_dict v = false ->
  exists w',
    Language_init fs o code w = (Ok (length (heap w)), w') /\
    self_data w' (length (heap w)) = Ok v /\
    forall n key default r,
      get_fuel (S n) (length (heap w)) key default r w'
      = Some (Raise AttributeError, w').
Proof.
  intros Hloc Hf Hdata Hv.
  unfold Language_init, dict_get_default. rewrite Hloc.
  assert (Hread : read_data fs (JStr loc) code w
                  = (Ok (Some v),
                     snd (print (Loaded_from_file code (Path loc)) w))).
  { unfold read_data, os_path_isdir, os_path_exists, json_load, bind, lift.
    simpl. rewrite Hf. simpl. unfold dict_get_default. now rewrite Hdata. }
  rewrite (bind_ok _ _ _ _ _ Hread).
  match goal with
  | |- exists w', alloc ?L ?W1 = _ /\ _ =>
      pose proof (self_data_alloc L W1) as Hself;
      exists (snd (alloc L W1));
      set (w' := snd (alloc L W1)) in *
  end.
  change (self_data w' (length (heap w)) = Ok v) in Hself.
  split; [reflexivity|]. split; [exact Hself|].
  intros n key default r. rewrite get_fuel_S. unfold get_body.
  rewrite Hself. destruct v; try reflexivity. discriminate Hv.
Qed.

Lemma single_file_data_not_an_object_witness :
  exists w',
    Language_init list_data_fs [("location", JStr "data.json")] "xx"
      initial_world = (Ok (length (heap initial_world)), w') /\
    self_data w' (length (heap initial_world))
    = Ok (JArr [JStr "x"; JStr "y"]) /\
    forall n key default r,
      get_fuel (S n) (length (heap initial_world)) key default r w'
      = Some (Raise AttributeError, w').
Proof.
  apply (single_file_data_not_an_object list_data_fs
           [("location", JStr "data.json")]
           [("data", JArr [JStr "x"; JStr "y"])]
           (JArr [JStr "x"; JStr "y"]) "xx" "data.json" initial_world);
    reflexivity.
Defined.

(** ** The order of a directory listing *)

Lemma string_compare_same a b :
  String.compare a b = String_as_OT.compare a b.
Proof.
  revert b. induction a as [|c a IH]; intros [|d b]; simpl; auto.
Qed.

Lemma string_lt_irrefl a : ~ String_as_OT.lt a a.
Proof. apply (@StrictOrder_Irreflexive _ _ String_as_OT.lt_strorder). Qed.

Lemma string_lt_trans a b c :
  String_as_OT.lt a b -> String_as_OT.lt b c -> String_as_OT.lt a c.
Proof. apply (@StrictOrder_Transitive _ _ String_as_OT.lt_strorder). Qed.

Lemma name_le_trans a b c :
  String.leb a b = true -> String.leb b c = true -> String.leb a c = true.
Proof.
  unfold String.leb.
  rewrite (string_compare_same a b), (string_compare_same b c),
    (string_compare_same a c).
  destruct (String_as_OT.compare_spec a b);
  destruct (String_as_OT.compare_spec b c);
  destruct (String_as_OT.compare_spec a c);
  intros H2 H3; try discriminate; try reflexivity;
  unfold String_as_OT.eq in *; subst; exfalso;
  eapply string_lt_irrefl; eauto 6 using string_lt_trans.
Qed.

Lemma name_le_false a b : String.leb a b = false -> String.leb b a = true.
Proof.
  intros H. destruct (String.leb_total a b) as [H'|H']; congruence.
Qed.

Lemma insert_sorted_comm x y l :
  insert_sorted x (insert_sorted y l) = insert_sorted y (insert_sorted x l).
Proof.
  induction l as [|z r IH]; simpl.
  - destruct (String.leb x y) eqn:Exy, (String.leb y x) eqn:Eyx; auto.
    + now rewrite (String.leb_antisym x y Exy Eyx).
    + apply name_le_false in Exy. congruence.
  - destruct (String.leb y z) eqn:Eyz, (String.leb x z) eqn:Exz; simpl.
    + destruct (String.leb x y) eqn:Exy, (String.leb y x) eqn:Eyx;
        rewrite ?Exz, ?Eyz; auto.
      * now rewrite (String.leb_antisym x y Exy Eyx).
      * apply name_le_false in Exy. congruence.
    + rewrite Exz, Eyz.
      destruct (String.leb x y) eqn:Exy; [|reflexivity].
      now rewrite (name_le_trans x y z Exy Eyz) in Exz.
    + rewrite Exz, Eyz.
      destruct (String.leb y x) eqn:Eyx; [|reflexivity].
      now rewrite (name_le_trans y x z Eyx Exz) in Eyz.
    + rewrite Exz, Eyz. now rewrite IH.
Qed.

Lemma sorted_permutation l l' : Permutation l l' -> sorted l = sorted l'.
Proof.
  induction 1; simpl; try congruence.
  apply insert_sorted_comm.
Qed.

Lemma json_load_relist fs loc names names' k :
  fs (Path loc) = Some (Dir names) ->
  json_load (relist fs loc names') k = json_load fs k.
Proof.
  intros Hfs. unfold json_load, relist. destruct k as [p|n]; [|reflexivity].
  destruct (String.eqb p loc) eqn:E; [|reflexivity].
  apply String.eqb_eq in E. subst p. now rewrite Hfs.
Qed.

Lemma read_dir_loop_relist fs loc names names' k fnames agg found w :
  fs (Path loc) = Some (Dir names) ->
  read_dir_loop (relist fs loc names') k fnames agg found w
  = read_dir_loop fs k fnames agg found w.
Proof.
  intros Hfs. revert agg found w.
  induction fnames as [|f rest IH]; intros agg found w; [reflexivity|].
  rewrite !read_dir_loop_unfold.
  destruct (negb (endswith f ".json")).
  - unfold bind, print. apply IH.
  - unfold bind, lift, print.
    destruct (os_path_join k f) as [fp|e]; [|reflexivity].
    rewrite (json_load_relist fs loc names names' (Path fp) Hfs).
    destruct (json_load fs (Path fp)) as [ld|e]; [|apply IH].
    destruct (py_get ld "data" (JObj [])); [apply IH|reflexivity].
Qed.

(** X15: the order in which the operating system lists a directory does
    not matter: with the same files listed in any other order,
    [__read_data] returns the same data, raises the same exception and
    prints the same lines. *)
Theorem read_data_listing_order (fs : filesystem) (loc : string)
    (names names' : list string) (code : string) (w : world) :
  fs (Path loc) = Some (Dir names) ->
  Permutation names names' ->
  read_data (relist fs loc names') (JStr loc) code w
  = read_data fs (JStr loc) code w.
Proof.
  intros Hfs Hperm.
  unfold read_data, os_fspath, os_path_isdir, os_listdir, bind, lift.
  cbn [relist]. rewrite String.eqb_refl, Hfs.
  rewrite (sorted_permutation names' names (Permutation_sym Hperm)).
  now rewrite (read_dir_loop_relist fs loc names names' (Path loc)
                 (sorted names) [] false w Hfs).
Qed.

Lemma read_data_listing_order_witness :
  read_data (relist sample_fs "lang/en" ["a.json"; "b.json"; "README.md"])
    (JStr "lang/en") "en_us" initial_world
  = read_data sample_fs (JStr "lang/en") "en_us" initial_world.
Proof.
  apply (read_data_listing_order sample_fs "lang/en"
           ["b.json"; "README.md"; "a.json"]
           ["a.json"; "b.json"; "README.md"] "en_us" initial_world).
  - reflexivity.
  - apply perm_trans with ["b.json"; "a.json"; "README.md"].
    + apply perm_skip, perm_swap.
    + apply perm_swap.
Defined.

(** ** Locations of the wrong type, and handles kept over a reload *)

(** X19: the manifest is checked for the presence of [location], not for
    its type: a [location] that is null, a float, a list or an object
    passes the assertions and makes the construction of the [Language],
    and with it the reload, raise [TypeError]. *)
Theorem location_of_wrong_type (fs : filesystem) (o : dict json)
    (loc : json) (code : string) (w : world) :
  dict_get o "location" = Some loc ->
  not_a_path loc = true ->
  dict_mem o "name" = true ->
  startswith code "notes" = false ->
  entry_valid (JObj o) = true /\
  Language_init fs o code w = (Raise TypeError, w) /\
  fst (load_entry fs code (JObj o) w) = Raise TypeError.
Proof.
  intros Hloc Hnp Hname Hnotes.
  assert (Hread : forall w0, read_data fs loc code w0 = (Raise TypeError, w0)).
  { intros w0. unfold read_data, bind, lift.
    destruct loc; try discriminate Hnp; reflexivity. }
  assert (Hinit : forall w0,
             Language_init fs o code w0 = (Raise TypeError, w0)).
  { intros w0. unfold Language_init, dict_get_default, bind.
    rewrite Hloc. now rewrite Hread. }
  split; [|split].
  - cbn [entry_valid]. unfold dict_mem at 1. now rewrite Hloc, Hname.
  - apply Hinit.
  - unfold load_entry. rewrite Hnotes.
    unfold dict_mem at 1. rewrite Hloc, Hname. cbn [negb].
    destruct (truthy (dict_get_default o "is_default" (JBool false))).
    + unfold bind at 1. unfold bind at 1. unfold print at 1.
      unfold assign_default_code at 1. apply bind_raise.
      now rewrite Hinit.
    + unfold bind at 1. unfold ret at 1. apply bind_raise.
      now rewrite Hinit.
Qed.

Lemma location_of_wrong_type_witness :
  entry_valid (JObj [("location", JNull); ("name", JStr "Nowhere")]) = true /\
  Language_init sample_fs [("location", JNull); ("name", JStr "Nowhere")]
    "xx" loaded_world = (Raise TypeError, loaded_world) /\
  fst (load_entry sample_fs "xx"
         (JObj [("location", JNull); ("name", JStr "Nowhere")])
         loaded_world) = Raise TypeError.
Proof.
  apply (location_of_wrong_type sample_fs
           [("location", JNull); ("name", JStr "Nowhere")] JNull
           "xx" loaded_world); reflexivity.
Defined.



